(** * CodeRunnerBot: the code-block extractor, the language resolver and
      the output chunker of [bot.go], embedded and verified.

    The Go functions [isCodeMessage], [getLanguageAndCodeFromMessage],
    [splitOutput], [stringInSlice] (current [bot.go]) and [cropMessage]
    (the earlier [!run] version of the bot) are translated to Rocq
    functions.  Go strings are byte sequences and are modelled by
    [string]; Go [int] is the 64-bit signed integer, modelled by [Z] with
    its wrap-around written out; a run-time panic (index or slice bound
    out of range) is the [Panic] outcome of the [result] type. *)

From Stdlib Require Import ZArith List String Ascii Bool Lia DecimalString.
From Stdlib Require Import Permutation.
From Equations Require Import Equations.
Import ListNotations.

Open Scope string_scope.
Open Scope Z_scope.

(** ** Outcomes: a value, or a run-time panic *)

Inductive result (A : Type) : Type :=
| Ok (a : A)
| Panic.

Arguments Ok {A} a.
Arguments Panic {A}.

Definition bind {A B : Type} (r : result A) (k : A -> result B) : result B :=
  match r with
  | Ok a => k a
  | Panic => Panic
  end.

Notation "x <- r ;; k" := (bind r (fun x => k))
  (at level 61, r at next level, right associativity).

Definition inspect {A : Type} (a : A) : {b : A | a = b} := exist _ a eq_refl.

(** ** Go's [int]: 64-bit two's complement *)

Module GoInt.

Definition min_int : Z := - 2 ^ 63.
Definition max_int : Z := 2 ^ 63 - 1.

Definition is_int (z : Z) : Prop := min_int <= z <= max_int.

Definition wrap (z : Z) : Z := (z + 2 ^ 63) mod 2 ^ 64 - 2 ^ 63.

Definition add (a b : Z) : Z := wrap (a + b).
Definition sub (a b : Z) : Z := wrap (a - b).

End GoInt.

(** ** Go strings and slices *)

Definition len (s : string) : Z := Z.of_nat (String.length s).
Definition lenL {A : Type} (l : list A) : Z := Z.of_nat (List.length l).

Fixpoint take (n : nat) (s : string) : string :=
  match n, s with
  | S n', String c s' => String c (take n' s')
  | _, _ => EmptyString
  end.

Fixpoint drop (n : nat) (s : string) : string :=
  match n, s with
  | S n', String _ s' => drop n' s'
  | _, _ => s
  end.

(** [s[:hi]] *)
Definition slice_to (s : string) (hi : Z) : result string :=
  if (0 <=? hi) && (hi <=? len s) then Ok (take (Z.to_nat hi) s) else Panic.

(** [s[lo:]] *)
Definition slice_from (s : string) (lo : Z) : result string :=
  if (0 <=? lo) && (lo <=? len s) then Ok (drop (Z.to_nat lo) s) else Panic.

(** [s[i]] *)
Definition index (s : string) (i : Z) : result ascii :=
  if (0 <=? i) && (i <? len s) then
    match String.get (Z.to_nat i) s with
    | Some c => Ok c
    | None => Panic
    end
  else Panic.

(** [c[i]] on a slice of strings *)
Definition indexL (c : list string) (i : Z) : result string :=
  if (0 <=? i) && (i <? lenL c) then
    match nth_error c (Z.to_nat i) with
    | Some s => Ok s
    | None => Panic
    end
  else Panic.

(** [c[lo:hi]] on a slice of strings.  A length is an [int] that is
    never negative, so the bound [len(c) - 1] of the callers cannot wrap
    around and is written with the subtraction of [Z]. *)
Definition sliceL (c : list string) (lo hi : Z) : result (list string) :=
  if (0 <=? lo) && (lo <=? hi) && (hi <=? lenL c) then
    Ok (firstn (Z.to_nat (hi - lo)) (skipn (Z.to_nat lo) c))
  else Panic.

Definition LF : ascii := "010"%char.
Definition CR : ascii := "013"%char.
Definition slash : ascii := "/"%char.
Definition nl : string := String LF EmptyString.

(** [strings.ReplaceAll(s, "\r\n", "\n")]: every CR LF pair, scanning from
    the left, becomes a single LF. *)
Fixpoint ReplaceAll_CRLF (s : string) : string :=
  match s with
  | EmptyString => EmptyString
  | String a s' =>
      match s' with
      | String b s'' =>
          if Ascii.eqb a CR && Ascii.eqb b LF
          then String LF (ReplaceAll_CRLF s'')
          else String a (ReplaceAll_CRLF s')
      | EmptyString => String a EmptyString
      end
  end.

(** [strings.Split(s, "\n")]: the substrings between the line feeds; a
    string with no line feed (the empty string too) gives one element. *)
Fixpoint Split_LF (s : string) : list string :=
  match s with
  | EmptyString => [EmptyString]
  | String a s' =>
      if Ascii.eqb a LF then EmptyString :: Split_LF s'
      else
        match Split_LF s' with
        | l :: ls => String a l :: ls
        | [] => [String a EmptyString]
        end
  end.

(** [strings.Join(a, "\n")] *)
Definition Join_LF (a : list string) : string := String.concat nl a.

Fixpoint repeat_char (n : nat) (c : ascii) : string :=
  match n with
  | O => EmptyString
  | S n' => String c (repeat_char n' c)
  end.

(** ** The output chunker: [splitOutput] *)

Definition backticks : string := "```".

(** The decoration [splitOutput] puts around a payload:
    ["```\n" + payload + "\n```"]. *)
Definition fence (payload : string) : string :=
  backticks ++ nl ++ payload ++ nl ++ backticks.

(** The text between the decorations of a fragment. *)
Definition payload (fragment : string) : string :=
  take (String.length fragment - 8) (drop 4 fragment).

(** [codeLimit := limit - 8] *)
Definition codeLimit (limit : Z) : Z := GoInt.sub limit 8.

(** The [for len(output) > limit { ... }] loop of [splitOutput], with the
    slice of messages built so far.  Each pass that does not panic drops
    [limit >= 8] bytes from [output], which is why the loop ends. *)
Equations? splitLoop (output : string) (limit : Z) (messages : list string)
  : result (list string) by wf (String.length output) lt :=
splitLoop output limit messages with inspect (len output >? limit) := {
  | exist _ false _ => Ok (messages ++ [fence output])%list
  | exist _ true _ with inspect (slice_to output (codeLimit limit)) := {
    | exist _ Panic _ => Panic
    | exist _ (Ok chunk) Hc with inspect (slice_from output limit) := {
      | exist _ Panic _ => Panic
      | exist _ (Ok rest) Hr =>
          splitLoop rest limit (messages ++ [fence chunk])%list } } }.
Proof.
  clear splitLoop. revert Hc Hr.
  unfold slice_to, slice_from, codeLimit, GoInt.sub, GoInt.wrap.
  destruct ((0 <=? limit) && (limit <=? len output)) eqn:E2; [|discriminate].
  destruct (0 <=? (limit - 8 + 2 ^ 63) mod 2 ^ 64 - 2 ^ 63) eqn:E1;
    [|discriminate].
  intros _ Hr. injection Hr as Hr. subst rest.
  apply andb_prop in E2. destruct E2 as [E2 E3].
  assert (8 <= limit) as Hlim.
  { destruct (Z_lt_le_dec limit 8) as [Hlt|Hge]; [|lia].
    assert ((limit - 8 + 2 ^ 63) mod 2 ^ 64 = limit - 8 + 2 ^ 63) as Hm
        by (apply Z.mod_small; lia).
    lia. }
  assert (forall n t, String.length (drop n t) = (String.length t - n)%nat)
    as Hdrop by (induction n as [|n IH]; intros [|a t]; simpl; auto).
  rewrite Hdrop. unfold len in *. lia.
Qed.

Definition splitOutput (output : string) (limit : Z) : result (list string) :=
  splitLoop output limit [].

(** The handlers post every fragment as a follow-up message, in order:
    [for _, message := range splitOutput(output, 500) { FollowupMessageCreate(...) }].
    The state is the list of contents posted so far. *)
Definition FollowupMessageCreate (content : string) (posted : list string)
  : list string := (posted ++ [content])%list.

Definition sendOutput (output : string) (posted : list string)
  : result (list string) :=
  messages <- splitOutput output 500 ;;
  Ok (fold_left (fun st message => FollowupMessageCreate message st) messages posted).

(** ** Single-fragment cropping: [cropMessage] (the [!run] version) *)

Definition MSG_CHAR_LIM : Z := 500.

Section Crop.

(** [log10int c] stands for [int(math.Log10(float64(c)))], a
    floating-point computation that is kept abstract. *)
Variable log10int : Z -> Z.

Definition cropMessage (toCrop : string) (buffer : Z) : result (string * Z) :=
  if GoInt.add (len toCrop) buffer <? MSG_CHAR_LIM then Ok (toCrop, 0)
  else
    let end0 := GoInt.sub (GoInt.sub MSG_CHAR_LIM buffer) 22 in
    let cropped := GoInt.sub (len toCrop) end0 in
    let end1 := GoInt.sub end0 (GoInt.add (log10int cropped) 1) in
    a <- index toCrop (GoInt.sub end1 2) ;;
    cond <- (if Ascii.eqb a slash
             then b <- index toCrop (GoInt.sub end1 3) ;;
                  Ok (negb (Ascii.eqb b slash))
             else Ok false) ;;
    end2 <- (if cond : bool then Ok (GoInt.sub end1 2)
             else c <- index toCrop (GoInt.sub end1 1) ;;
                  Ok (if Ascii.eqb c slash then GoInt.sub end1 1 else end1)) ;;
    shown <- slice_to toCrop end2 ;;
    Ok (shown, GoInt.sub (len toCrop) end2).

(** The cut index before the separator adjustment, when nothing wraps:
    [MSG_CHAR_LIM - buffer - 22] less the digit estimate. *)
Definition rawCut (toCrop : string) (buffer : Z) : Z :=
  MSG_CHAR_LIM - buffer - 22
  - (log10int (len toCrop - (MSG_CHAR_LIM - buffer - 22)) + 1).

(** The cut index the code settles on, as a function of the raw one. *)
Definition finalCut (toCrop : string) (e : Z) : Z :=
  if (match String.get (Z.to_nat (e - 2)) toCrop with
      | Some a => Ascii.eqb a slash
      | None => false
      end)
     && (match String.get (Z.to_nat (e - 3)) toCrop with
         | Some b => negb (Ascii.eqb b slash)
         | None => false
         end)
  then e - 2
  else
    match String.get (Z.to_nat (e - 1)) toCrop with
    | Some c => if Ascii.eqb c slash then e - 1 else e
    | None => e
    end.

End Crop.

(** The floor of the decimal logarithm: the instance of [log10int] used
    in the worked examples, none of which meets a power of ten. *)
Fixpoint ilog10_fuel (fuel : nat) (c : Z) : Z :=
  match fuel with
  | O => 0
  | S fuel' => if c <? 10 then 0 else 1 + ilog10_fuel fuel' (c / 10)
  end.

Definition ilog10 (c : Z) : Z := ilog10_fuel 20 c.

(** The only call site, [messageCreate]:
    [buffer := len(template) + 3 - 5]. *)
Definition template : string :=
  "Received Output:" ++ nl ++ "```" ++ nl ++ "%s" ++ nl ++ "```" ++ nl.

Definition messageCreate_buffer : Z :=
  GoInt.sub (GoInt.add (len template) 3) 5.

(** ** The code-block extractor: [isCodeMessage] *)

Record Message : Type := { Content : string }.

(** [c := strings.Split(strings.ReplaceAll(m.Content, "\r\n", "\n"), "\n")] *)
Definition lines (m : Message) : list string :=
  Split_LF (ReplaceAll_CRLF (Content m)).

Definition isCodeMessage (m : Message) : result bool :=
  let c := lines m in
  if lenL c <? 2 then Ok false
  else
    c0 <- indexL c 0 ;;
    opening <- slice_to c0 3 ;;
    if String.eqb opening backticks
    then last <- indexL c (lenL c - 1) ;;
         Ok (String.eqb last backticks)
    else Ok false.

(** ** The language resolver: [getLanguageAndCodeFromMessage] *)

(** [languageMappings] is a Go map from a language name to its aliases,
    and Go does not fix the order in which [range] visits a map.  A
    registry lists the entries in the order of one such visit; the
    properties below hold for every order. *)
Definition registry : Type := list (string * list string).

Section Resolver.

(** [strings.EqualFold], Go's Unicode case-insensitive comparison. *)
Variable EqualFold : string -> string -> bool.

(** [for _, k := range j { if strings.EqualFold(k, test) { return ... } }] *)
Fixpoint aliasMatches (j : list string) (test : string) : bool :=
  match j with
  | [] => false
  | k :: j' => if EqualFold k test then true else aliasMatches j' test
  end.

Fixpoint rangeMappings (languageMappings : registry) (c : list string)
  : result (string * string) :=
  match languageMappings with
  | [] =>
      body <- sliceL c 1 (lenL c - 1) ;;
      Ok ("", Join_LF body)
  | (i, j) :: rest =>
      c0 <- indexL c 0 ;;
      test <- slice_from c0 3 ;;
      body <- sliceL c 1 (lenL c - 1) ;;
      let code := Join_LF body in
      if EqualFold test i then Ok (i, code)
      else if aliasMatches j test then Ok (i, code)
      else rangeMappings rest c
  end.

Definition getLanguageAndCodeFromMessage
  (languageMappings : registry) (m : Message) : result (string * string) :=
  rangeMappings languageMappings (lines m).

(** The tag and the body of a message, read off its lines. *)
Definition rawTag (m : Message) : string := drop 3 (hd "" (lines m)).

Definition codeBody (m : Message) : string :=
  Join_LF (removelast (tl (lines m))).

(** Whether an entry answers to a tag: by its name or by an alias. *)
Definition entryMatches (test : string) (e : string * list string) : bool :=
  EqualFold test (fst e) || aliasMatches (snd e) test.

(** The language the loop returns for a tag. *)
Definition resolve (languageMappings : registry) (test : string) : string :=
  match find (entryMatches test) languageMappings with
  | Some e => fst e
  | None => ""
  end.

End Resolver.

(** Case folding of the ASCII letters: what [strings.EqualFold] does on
    strings of ASCII bytes. *)
Definition foldByte (a : ascii) : ascii :=
  let n := nat_of_ascii a in
  if (65 <=? n)%nat && (n <=? 90)%nat then ascii_of_nat (n + 32) else a.

Fixpoint foldString (s : string) : string :=
  match s with
  | EmptyString => EmptyString
  | String a s' => String (foldByte a) (foldString s')
  end.

Definition EqualFoldASCII (s t : string) : bool :=
  String.eqb (foldString s) (foldString t).

(** ** The [/run] command's language option *)

Fixpoint stringInSlice (s : string) (a : list string) : bool :=
  match a with
  | [] => false
  | i :: a' => if String.eqb i s then true else stringInSlice s a'
  end.

Inductive reply : Type :=
| NotSupported (lang : string)
| NoLanguageProvided
| Exec (lang code : string).

(** The [run] handler after the message has been parsed into
    [lang, code]: an option, when given, replaces [lang] and must be in
    [languages]. *)
Definition runLanguage (languages options : list string) (lang code : string)
  : reply :=
  let lang' := match options with
               | option0 :: _ => option0
               | [] => lang
               end in
  if (0 <? lenL options) && negb (stringInSlice lang' languages)
  then NotSupported lang'
  else if String.eqb lang' "" then NoLanguageProvided
  else Exec lang' code.

(** ** Definitions used to state the properties *)

(** The fragment count of the loop: one fragment per started block of
    [limit] bytes, and one fragment for the empty output. *)
Definition fragmentCount (output : string) (limit : Z) : Z :=
  if len output =? 0 then 1 else (len output + limit - 1) / limit.

(** The payloads of a list of fragments, put back together. *)
Definition joinPayloads (fragments : list string) : string :=
  String.concat "" (map payload fragments).

(** [ceil(a / b)] for a positive [b]. *)
Definition ceilDiv (a b : Z) : Z := (a + b - 1) / b.

(** A fenced message with a tag and one line of code, and a small
    registry, for the scenarios. *)
Definition pythonMessage (tag : string) : Message :=
  {| Content := backticks ++ tag ++ nl ++ "print(1)" ++ nl ++ backticks |}.

Definition sampleRegistry : registry :=
  [("python", ["py"; "py3"; "python3"]); ("c", ["gcc"])].

(** The inputs on which no [int] operation of [cropMessage] wraps
    around. *)
Definition noWrap (toCrop : string) (buffer : Z) : Prop :=
  GoInt.min_int + 501 <= buffer
  /\ len toCrop <= GoInt.max_int
  /\ len toCrop + buffer <= GoInt.max_int.

(** The separator rule in the words of the specification: a non-slash
    and a slash right before the cut move it back by two, otherwise a
    slash right before the cut moves it back by one. *)
Definition claimedCut (toCrop : string) (e : Z) : Z :=
  match String.get (Z.to_nat (e - 2)) toCrop,
        String.get (Z.to_nat (e - 1)) toCrop with
  | Some a, Some b =>
      if negb (Ascii.eqb a slash) && Ascii.eqb b slash then e - 2
      else if Ascii.eqb b slash then e - 1 else e
  | _, _ => e
  end.

(** ** Loading the registry: [init] *)

(** The two fields of a runtime that [init] reads. *)
Record Runtime : Type := { Language : string; Aliases : list string }.

(** [m[k] = v] on a map kept as a list with distinct keys: the value of
    an existing key is replaced, a new key is added.  The order of the
    list stands for no iteration order. *)
Fixpoint mapAssign (m : registry) (k : string) (v : list string) : registry :=
  match m with
  | [] => [(k, v)]
  | (k', v') :: m' =>
      if String.eqb k' k then (k, v) :: m' else (k', v') :: mapAssign m' k v
  end.

(** [m[k]], with whether the key is present. *)
Fixpoint mapLookup (m : registry) (k : string) : option (list string) :=
  match m with
  | [] => None
  | (k', v') :: m' => if String.eqb k' k then Some v' else mapLookup m' k
  end.

(** [for i, r := range *runtimes { languages[i] = r.Language;
    languageMappings[r.Language] = r.Aliases }]: the two globals after
    the loop. *)
Definition loadLanguages (runtimes : list Runtime) : list string * registry :=
  (map Language runtimes,
   fold_left (fun m r => mapAssign m (Language r) (Aliases r)) runtimes []).

(** ** The command handlers: [Run Code] and [/run] *)

(** What a handler did: the follow-up messages it posted, in order, and
    the calls it made to the execution service. *)
Record handled : Type :=
  { followups : list string; execCalls : list (string * string) }.

Definition followup (content : string) : result handled :=
  Ok {| followups := FollowupMessageCreate content []; execCalls := [] |}.

Definition notCodeMessage : string :=
  "Message is not a code message. Did you remember to wrap your code in backticks (```)?".

Definition noLanguageProvided : string :=
  "No language provided. Did you remember to put a valid language after the opening backticks? (e.g. ```py)".

Definition noCodeMessages : string :=
  "No code messages found in the last 10 messages. Did you remember to wrap your code in backticks (```)?".

Definition channelError : string := "Error getting messages in channel.".

(** [fmt.Sprintf("Error executing code.```\n%v\n```", err)] *)
Definition execError (err : string) : string :=
  "Error executing code.```" ++ nl ++ err ++ nl ++ "```".

(** [fmt.Sprintf("Language %v is not supported. Supported languages are: %v",
    lang, languages)]; [%v] prints a slice of strings between brackets,
    separated by spaces. *)
Definition notSupported (lang : string) (languages : list string) : string :=
  "Language " ++ lang ++ " is not supported. Supported languages are: ["
  ++ String.concat " " languages ++ "]".

Section Handlers.

Variable EqualFold : string -> string -> bool.

(** [Exec(lang, "", code)], the call to the execution service: an output
    and, when the call failed, the text of the error. *)
Variable pistonExec : string -> string -> string * option string.

Variable languages : list string.
Variable languageMappings : registry.

(** The end of both handlers: run the code, then post the error or the
    fragments of the output. *)
Definition execAndSend (lang code : string) : result handled :=
  match pistonExec lang code with
  | (_, Some err) =>
      Ok {| followups := FollowupMessageCreate (execError err) [];
            execCalls := [(lang, code)] |}
  | (output, None) =>
      posted <- sendOutput output [] ;;
      Ok {| followups := posted; execCalls := [(lang, code)] |}
  end.

(** The [Run Code] message command.  [respondFailed] says whether the
    deferred response returned an error. *)
Definition handleRunCode (respondFailed : bool) (message : Message)
  : result handled :=
  if respondFailed then Ok {| followups := []; execCalls := [] |}
  else
    isCode <- isCodeMessage message ;;
    if negb isCode then followup notCodeMessage
    else
      lc <- getLanguageAndCodeFromMessage EqualFold languageMappings message ;;
      if negb (String.eqb (fst lc) EmptyString)
      then execAndSend (fst lc) (snd lc)
      else followup noLanguageProvided.

(** [for _, m := range messages { if isCodeMessage(m) { message = m; break } }],
    starting from [message := &discordgo.Message{}]. *)
Fixpoint findCodeMessage (messages : list Message) : result Message :=
  match messages with
  | [] => Ok {| Content := EmptyString |}
  | m :: rest =>
      isCode <- isCodeMessage m ;;
      if isCode : bool then Ok m else findCodeMessage rest
  end.

(** The [/run] command.  [messages] is what [ChannelMessages] returned
    (the last 10 messages of the channel), [channelFailed] whether it
    returned an error, [options] the string values of the options. *)
Definition handleRun (respondFailed channelFailed : bool)
  (messages : list Message) (options : list string) : result handled :=
  if respondFailed then Ok {| followups := []; execCalls := [] |}
  else if channelFailed then followup channelError
  else
    message <- findCodeMessage messages ;;
    if String.eqb (Content message) EmptyString then followup noCodeMessages
    else
      lc <- getLanguageAndCodeFromMessage EqualFold languageMappings message ;;
      match runLanguage languages options (fst lc) (snd lc) with
      | NotSupported lang => followup (notSupported lang languages)
      | NoLanguageProvided => followup noLanguageProvided
      | Exec lang code => execAndSend lang code
      end.

End Handlers.

(** ** Further definitions used to state the properties *)

(** Whether a byte occurs in a string. *)
Fixpoint contains (c : ascii) (s : string) : bool :=
  match s with
  | EmptyString => false
  | String a s' => Ascii.eqb a c || contains c s'
  end.

(** A code message written out: the marker and the tag, the code, the
    marker, on lines ended by a line feed. *)
Definition fencedMessage (tag code : string) : Message :=
  {| Content := backticks ++ tag ++ nl ++ code ++ nl ++ backticks |}.

(** The same text with every line feed written as CR LF. *)
Fixpoint toCRLF (s : string) : string :=
  match s with
  | EmptyString => EmptyString
  | String a s' =>
      if Ascii.eqb a LF then String CR (String LF (toCRLF s'))
      else String a (toCRLF s')
  end.

(** [output[lo:hi]] for bounds inside the string. *)
Definition substring_at (lo n : nat) (s : string) : string := take n (drop lo s).

(** A stand-in for the execution service in the examples: it returns the
    code as its output and never fails. *)
Definition echoExec (lang code : string) : string * option string :=
  (code, None).

(** ** The response of [messageCreate] (the [!run] version) *)

(** [fmt.Sprintf("(cropped %d characters)\n", cropped)] *)
Definition croppedNote (cropped : Z) : string :=
  "(cropped " ++ NilZero.string_of_int (Z.to_int cropped) ++ " characters)"
  ++ nl.

Section Response.

Variable log10int : Z -> Z.

(** The end of [messageCreate], from the output of the execution to the
    text that is sent: the output is cropped with
    [buffer := len(template) + 3 - 5], the note on the cropped bytes is
    added to the template when some were cropped, and the cropped text
    takes the place of [%s]. *)
Definition response (output : string) : result string :=
  let buffer := messageCreate_buffer in
  cm <- cropMessage log10int output buffer ;;
  let note := if 0 <? snd cm then croppedNote (snd cm) else EmptyString in
  Ok ("Received Output:" ++ nl ++ "```" ++ nl ++ fst cm ++ nl ++ "```" ++ nl
      ++ note).

End Response.

(** A history without a code message, for the examples. *)
Definition chatter : list Message :=
  [{| Content := "hello" |}; {| Content := "see you" ++ nl ++ "tomorrow" |}].

(** At most one entry of the registry answers to a tag: any two entries
    that match it have the same name.  [languageMappings] is a Go map
    and every [range] over it may visit the entries in another order;
    this is what makes the language found independent of the order. *)
Definition oneAnswer (EqualFold : string -> string -> bool)
  (reg : registry) (test : string) : Prop :=
  forall e1 e2 : string * list string,
    In e1 reg -> In e2 reg ->
    entryMatches EqualFold test e1 = true ->
    entryMatches EqualFold test e2 = true ->
    fst e1 = fst e2.

(** Whether the first byte of a string is a slash. *)
Definition startsWithSlash (s : string) : bool :=
  match String.get 0 s with
  | Some a => Ascii.eqb a slash
  | None => false
  end.

(** * Properties *)

(** ** Integers, strings and slices *)

Lemma wrap_small (z : Z) : GoInt.is_int z -> GoInt.wrap z = z.
Proof.
  unfold GoInt.is_int, GoInt.min_int, GoInt.max_int, GoInt.wrap. intros H.
  rewrite Z.mod_small; lia.
Qed.

Ltac unwrap :=
  unfold GoInt.add, GoInt.sub;
  rewrite ?wrap_small
    by (unfold GoInt.is_int, GoInt.min_int, GoInt.max_int in *; lia).

Lemma len_nonneg (s : string) : 0 <= len s.
Proof. unfold len. lia. Qed.

Lemma len_app (s t : string) : len (s ++ t) = len s + len t.
Proof.
  unfold len. induction s as [|a s IH]; simpl String.length; lia.
Qed.

Lemma length_drop (n : nat) (s : string) :
  String.length (drop n s) = (String.length s - n)%nat.
Proof.
  revert s; induction n as [|n IH]; intros [|a s]; simpl; auto.
Qed.

Lemma length_take (n : nat) (s : string) :
  String.length (take n s) = Nat.min n (String.length s).
Proof.
  revert s; induction n as [|n IH]; intros [|a s]; simpl; auto.
Qed.

Lemma take_drop (n : nat) (s : string) : take n s ++ drop n s = s.
Proof.
  revert s; induction n as [|n IH]; intros [|a s]; simpl; auto.
  now rewrite IH.
Qed.

Lemma take_app_exact (s t : string) : take (String.length s) (s ++ t) = s.
Proof. induction s as [|a s IH]; simpl; [now destruct t | now rewrite IH]. Qed.

Lemma len_fence (p : string) : len (fence p) = len p + 8.
Proof.
  unfold fence. rewrite !len_app.
  change (len backticks) with 3. change (len nl) with 1. lia.
Qed.

Lemma payload_fence (p : string) : payload (fence p) = p.
Proof.
  unfold payload.
  assert (String.length (fence p) - 8 = String.length p)%nat as ->.
  { pose proof (len_fence p) as H. unfold len in H. lia. }
  unfold fence, backticks, nl. simpl. apply take_app_exact.
Qed.

Lemma slice_to_ok (s : string) (hi : Z) :
  0 <= hi <= len s -> slice_to s hi = Ok (take (Z.to_nat hi) s).
Proof.
  intros H. unfold slice_to.
  destruct (Z.leb_spec 0 hi), (Z.leb_spec hi (len s)); simpl; auto; lia.
Qed.

Lemma slice_from_ok (s : string) (lo : Z) :
  0 <= lo <= len s -> slice_from s lo = Ok (drop (Z.to_nat lo) s).
Proof.
  intros H. unfold slice_from.
  destruct (Z.leb_spec 0 lo), (Z.leb_spec lo (len s)); simpl; auto; lia.
Qed.

Lemma slice_to_panic (s : string) (hi : Z) :
  hi < 0 \/ len s < hi -> slice_to s hi = Panic.
Proof.
  intros H. unfold slice_to.
  destruct (Z.leb_spec 0 hi), (Z.leb_spec hi (len s)); simpl; auto; lia.
Qed.

Lemma len_concat_cons (p : string) (ps : list string) :
  len (String.concat "" (p :: ps)) = len p + len (String.concat "" ps).
Proof.
  destruct ps as [|q ps].
  - simpl. unfold len at 3. simpl. lia.
  - change (String.concat "" (p :: q :: ps))
      with (p ++ "" ++ String.concat "" (q :: ps)).
    now rewrite !len_app.
Qed.

Lemma removelast_map {A B : Type} (f : A -> B) (l : list A) :
  removelast (map f l) = map f (removelast l).
Proof.
  induction l as [|a [|b l] IH]; simpl in *; auto.
  now rewrite IH.
Qed.

(** ** The chunker *)

Lemma splitLoop_body (output : string) (limit : Z) (messages : list string) :
  splitLoop output limit messages =
  if len output >? limit then
    match slice_to output (codeLimit limit) with
    | Panic => Panic
    | Ok chunk =>
        match slice_from output limit with
        | Panic => Panic
        | Ok rest => splitLoop rest limit (messages ++ [fence chunk])%list
        end
    end
  else Ok (messages ++ [fence output])%list.
Proof.
  funelim (splitLoop output limit messages).
  - now rewrite e.
  - now rewrite e0, e.
  - now rewrite e, Hc, Hr.
  - now rewrite e0, Hc, e.
Qed.

(** One pass of the loop when the limit covers the decoration: the
    fragment carries [limit - 8] bytes and [limit] bytes leave [output]. *)
Lemma splitLoop_step (output : string) (limit : Z) (messages : list string) :
  8 <= limit <= GoInt.max_int -> limit < len output ->
  splitLoop output limit messages =
  splitLoop (drop (Z.to_nat limit) output) limit
    (messages ++ [fence (take (Z.to_nat (limit - 8)) output)])%list.
Proof.
  intros Hlim Hlen. rewrite splitLoop_body.
  destruct (Z.gtb_spec (len output) limit); [|lia].
  unfold codeLimit. unwrap.
  rewrite slice_to_ok, slice_from_ok by lia. reflexivity.
Qed.

Lemma splitLoop_last (output : string) (limit : Z) (messages : list string) :
  len output <= limit ->
  splitLoop output limit messages = Ok (messages ++ [fence output])%list.
Proof.
  intros Hlen. rewrite splitLoop_body.
  destruct (Z.gtb_spec (len output) limit); [lia|reflexivity].
Qed.

(** What the loop returns when the limit covers the decoration. *)
Lemma splitLoop_payloads (limit : Z) :
  8 <= limit <= GoInt.max_int ->
  forall (n : nat) (output : string) (messages : list string),
    (String.length output <= n)%nat ->
    exists ps : list string,
      splitLoop output limit messages = Ok (messages ++ map fence ps)%list
      /\ ps <> []
      /\ lenL ps = fragmentCount output limit
      /\ Forall (fun p => len p = limit - 8) (removelast ps)
      /\ len (String.concat "" ps) = len output - 8 * (lenL ps - 1).
Proof.
  intros Hlim. induction n as [|n IH]; intros output messages Hn.
  - exists [output]. rewrite splitLoop_last by (unfold len; lia).
    repeat split; try discriminate; [|constructor|simpl; lia].
    unfold fragmentCount, lenL, len.
    replace (String.length output) with 0%nat by lia. reflexivity.
  - destruct (Z_le_gt_dec (len output) limit) as [Hle|Hgt].
    + exists [output]. rewrite splitLoop_last by assumption.
      repeat split; try discriminate; [|constructor|simpl; lia].
      unfold fragmentCount, lenL. simpl List.length.
      destruct (Z.eqb_spec (len output) 0) as [|Hne]; [reflexivity|].
      pose proof (len_nonneg output).
      apply Z.div_unique with (r := len output - 1); lia.
    + rewrite splitLoop_step by lia.
      set (rest := drop (Z.to_nat limit) output).
      set (chunk := take (Z.to_nat (limit - 8)) output).
      assert (len rest = len output - limit) as Hrest.
      { unfold rest, len. rewrite length_drop. unfold len in Hgt. lia. }
      destruct (IH rest (messages ++ [fence chunk])%list)
        as (ps & Hps & Hne & Hcount & Hall & Htotal).
      { unfold len in Hrest, Hgt. lia. }
      exists (chunk :: ps). repeat split.
      * rewrite Hps, <- app_assoc. reflexivity.
      * discriminate.
      * unfold lenL in *. simpl List.length. rewrite Nat2Z.inj_succ, Hcount.
        unfold fragmentCount. rewrite Hrest.
        destruct (Z.eqb_spec (len output - limit) 0);
          destruct (Z.eqb_spec (len output) 0); try lia.
        replace (len output + limit - 1)
          with (len output - limit + limit - 1 + 1 * limit) by lia.
        rewrite Z.div_add by lia. lia.
      * destruct ps as [|p ps]; [congruence|].
        change (removelast (chunk :: p :: ps))
          with (chunk :: removelast (p :: ps)).
        constructor; [|assumption].
        unfold chunk, len. rewrite length_take. unfold len in Hgt. lia.
      * rewrite len_concat_cons, Htotal, Hrest.
        assert (len chunk = limit - 8) as ->.
        { unfold chunk, len. rewrite length_take. unfold len in Hgt. lia. }
        unfold lenL. simpl List.length. lia.
Qed.

Lemma map_payload_fence (ps : list string) : map payload (map fence ps) = ps.
Proof.
  induction ps as [|p ps IH]; simpl; [reflexivity|].
  now rewrite payload_fence, IH.
Qed.

(** With a limit that covers the decoration, every pass of the loop
    leaves 8 bytes of the output out of the fragments. *)
Lemma splitOutput_total_payload (output : string) (limit : Z) :
  8 <= limit <= GoInt.max_int ->
  exists fragments : list string,
    splitOutput output limit = Ok fragments
    /\ len (joinPayloads fragments) = len output - 8 * (lenL fragments - 1).
Proof.
  intros Hlim.
  destruct (splitLoop_payloads limit Hlim (String.length output) output [])
    as (ps & Hps & _ & _ & _ & Htotal); [lia|].
  exists (map fence ps). split; [exact Hps|].
  unfold joinPayloads. rewrite map_payload_fence, Htotal.
  unfold lenL. now rewrite length_map.
Qed.

(** A limit under the decoration's 8 bytes makes the first pass of the
    loop panic on a slice bound. *)
Lemma splitOutput_small_limit (output : string) (limit : Z) :
  limit < 8 -> limit < len output -> splitOutput output limit = Panic.
Proof.
  intros Hlim Hlen. unfold splitOutput. rewrite splitLoop_body.
  destruct (Z.gtb_spec (len output) limit); [|lia].
  destruct (Z_lt_le_dec limit 0) as [Hneg|Hpos].
  - destruct (slice_to output (codeLimit limit)); [|reflexivity].
    unfold slice_from. destruct (Z.leb_spec 0 limit); [lia|reflexivity].
  - rewrite slice_to_panic; [reflexivity|].
    left. unfold codeLimit. unwrap. lia.
Qed.

(** C1 (code defect): the fragments do not add up to the output.  On 501
    bytes with the handlers' limit of 500, the first fragment carries
    [output[:492]], the loop goes on from [output[500:]], and the 8 bytes
    in between are in no fragment: the payloads add up to 493 bytes. *)
Theorem splitOutput_drops_bytes :
  exists fragments : list string,
    splitOutput (repeat_char 501 "A") 500 = Ok fragments
    /\ joinPayloads fragments = repeat_char 493 "A"
    /\ joinPayloads fragments <> repeat_char 501 "A".
Proof.
  eexists. split; [vm_compute; reflexivity|].
  split; [vm_compute; reflexivity|].
  vm_compute. discriminate.
Qed.

(** C5 (code defect): a fragment can exceed the limit.  The loop compares
    the undecorated output with [limit], so 495 bytes are sent as one
    fragment of 503 bytes under a limit of 500. *)
Theorem splitOutput_fragment_over_limit :
  splitOutput (repeat_char 495 "A") 500 = Ok [fence (repeat_char 495 "A")]
  /\ len (fence (repeat_char 495 "A")) = 503
  /\ ~ len (fence (repeat_char 495 "A")) <= 500.
Proof.
  split; [vm_compute; reflexivity|].
  split; [vm_compute; reflexivity|].
  vm_compute. intros H. apply H. reflexivity.
Qed.

(** C3, as stated, fails twice: the empty output gives one fragment where
    [ceil(0 / limit)] is zero, and on 1200 bytes under a limit of 500 the
    payloads are 492, 492 and 200 bytes long, not 492, 492 and 216. *)
Lemma splitOutput_count_counterexample :
  (exists fragments : list string,
      splitOutput "" 500 = Ok fragments
      /\ lenL fragments = 1
      /\ lenL fragments <> ceilDiv (len "") 500)
  /\ (exists fragments : list string,
         splitOutput (repeat_char 1200 "A") 500 = Ok fragments
         /\ map (fun f => len (payload f)) fragments = [492; 492; 200]
         /\ map (fun f => len (payload f)) fragments <> [492; 492; 216]).
Proof.
  split.
  - exists [fence ""]. split; [vm_compute; reflexivity|].
    split; [reflexivity|]. vm_compute. discriminate.
  - eexists. split; [vm_compute; reflexivity|].
    split; [vm_compute; reflexivity|]. vm_compute. discriminate.
Qed.

(** C3 (amended): for a non-empty output and a limit above the 8 bytes of
    decoration, [splitOutput] returns exactly [ceil(len(output) / limit)]
    fragments, each of them a fenced payload, and the payload of every
    fragment but the last has exactly [limit - 8] bytes. *)
Theorem splitOutput_fragments (output : string) (limit : Z) :
  8 < limit <= GoInt.max_int ->
  output <> "" ->
  exists fragments : list string,
    splitOutput output limit = Ok fragments
    /\ lenL fragments = ceilDiv (len output) limit
    /\ Forall (fun f => f = fence (payload f)) fragments
    /\ Forall (fun f => len (payload f) = limit - 8) (removelast fragments).
Proof.
  intros Hlim Hne.
  destruct (splitLoop_payloads limit (ltac:(lia)) (String.length output) output [])
    as (ps & Hps & _ & Hcount & Hall & _); [lia|].
  exists (map fence ps). split; [exact Hps|]. split; [|split].
  - unfold lenL in *. rewrite length_map, Hcount. unfold fragmentCount.
    destruct (Z.eqb_spec (len output) 0) as [H0|]; [|reflexivity].
    destruct output; [congruence|]. unfold len in H0. simpl in H0. lia.
  - apply Forall_forall. intros f Hf. apply in_map_iff in Hf.
    destruct Hf as (p & <- & _). now rewrite payload_fence.
  - rewrite removelast_map. apply Forall_forall. intros f Hf.
    apply in_map_iff in Hf. destruct Hf as (p & <- & Hp).
    rewrite payload_fence. revert p Hp. now apply Forall_forall.
Qed.

(** The scenario of the specification: 1200 bytes under a limit of 500
    give 3 fragments, the first two with payloads of 492 bytes. *)
Lemma splitOutput_fragments_witness :
  8 < 500 <= GoInt.max_int
  /\ repeat_char 1200 "A" <> ""
  /\ exists fragments : list string,
      splitOutput (repeat_char 1200 "A") 500 = Ok fragments
      /\ lenL fragments = 3
      /\ Forall (fun f => f = fence (payload f)) fragments
      /\ Forall (fun f => len (payload f) = 492) (removelast fragments).
Proof.
  assert (8 < 500 <= GoInt.max_int) as Hlim by (vm_compute; split; congruence).
  assert (repeat_char 1200 "A" <> "") as Hne by discriminate.
  split; [exact Hlim|]. split; [exact Hne|].
  exact (splitOutput_fragments (repeat_char 1200 "A") 500 Hlim Hne).
Defined.

Lemma sendOutput_posts (messages posted : list string) :
  fold_left (fun st message => FollowupMessageCreate message st) messages posted
  = (posted ++ messages)%list.
Proof.
  revert posted. induction messages as [|m messages IH]; intros posted; simpl.
  - now rewrite app_nil_r.
  - rewrite IH. unfold FollowupMessageCreate. now rewrite <- app_assoc.
Qed.

(** C10, as stated for every limit, fails: with a limit under the
    decoration's 8 bytes and a longer output, [output[:codeLimit]] has a
    negative bound and the call panics instead of returning a list. *)
Lemma splitOutput_every_limit_counterexample :
  splitOutput "a" 0 = Panic
  /\ ~ (exists fragments : list string,
           splitOutput "a" 0 = Ok fragments /\ fragments <> []).
Proof.
  assert (splitOutput "a" 0 = Panic) as H by (vm_compute; reflexivity).
  split; [exact H|]. intros (fragments & Hf & _). congruence.
Qed.

(** C10 (amended): whenever the limit covers the 8 bytes of decoration,
    or the output is no longer than the limit, [splitOutput] returns a
    non-empty list of fragments; for the empty output that list is the
    single fragment ["```\n\n```"], and the handlers (limit 500) post
    every fragment returned, the decoration-only one included. *)
Theorem splitOutput_nonempty (output : string) (limit : Z) :
  8 <= limit <= GoInt.max_int \/ len output <= limit ->
  exists fragments : list string,
    splitOutput output limit = Ok fragments
    /\ fragments <> []
    /\ (output = "" -> fragments = [backticks ++ nl ++ nl ++ backticks])
    /\ (limit = 500 -> sendOutput output [] = Ok fragments).
Proof.
  intros Hcase.
  assert (exists fragments : list string,
             splitOutput output limit = Ok fragments
             /\ fragments <> []
             /\ (output = "" -> fragments = [fence ""])) as (fs & Hfs & Hne & He).
  { destruct (Z_le_gt_dec (len output) limit) as [Hle|Hgt].
    - exists [fence output]. unfold splitOutput.
      rewrite splitLoop_last by assumption.
      split; [reflexivity|]. split; [discriminate|]. now intros ->.
    - destruct Hcase as [Hlim|Hle]; [|lia].
      destruct (splitLoop_payloads limit Hlim (String.length output) output [])
        as (ps & Hps & Hne & _); [lia|].
      exists (map fence ps). split; [exact Hps|]. split.
      + destruct ps; [congruence|discriminate].
      + intros ->. unfold len in Hgt. simpl in Hgt. lia. }
  exists fs. split; [exact Hfs|]. split; [exact Hne|]. split.
  - exact He.
  - intros ->. unfold sendOutput. rewrite Hfs. simpl.
    now rewrite sendOutput_posts.
Qed.

(** The empty output under the handlers' limit: one fragment of 8 bytes,
    which is posted. *)
Lemma splitOutput_nonempty_witness :
  (8 <= 500 <= GoInt.max_int \/ len "" <= 500)
  /\ exists fragments : list string,
      splitOutput "" 500 = Ok fragments
      /\ fragments <> []
      /\ ("" = "" -> fragments = [backticks ++ nl ++ nl ++ backticks])
      /\ (500 = 500 -> sendOutput "" [] = Ok fragments).
Proof.
  assert (8 <= 500 <= GoInt.max_int \/ len "" <= 500) as H
      by (right; vm_compute; congruence).
  split; [exact H|].
  exact (splitOutput_nonempty "" 500 H).
Defined.

(** ** The extractor *)

Lemma indexL_head (c0 : string) (c : list string) : indexL (c0 :: c) 0 = Ok c0.
Proof. reflexivity. Qed.

Lemma indexL_last (c0 lst : string) (middle : list string) :
  indexL (c0 :: middle ++ [lst]) (lenL (c0 :: middle ++ [lst]) - 1) = Ok lst.
Proof.
  unfold indexL, lenL. simpl List.length. rewrite length_app. simpl List.length.
  replace (Z.of_nat (S (List.length middle + 1)) - 1)
    with (Z.of_nat (S (List.length middle))) by lia.
  rewrite Nat2Z.id.
  destruct (Z.leb_spec 0 (Z.of_nat (S (List.length middle)))); [|lia].
  destruct (Z.ltb_spec (Z.of_nat (S (List.length middle)))
              (Z.of_nat (S (List.length middle + 1)))); [|lia].
  simpl. rewrite nth_error_app2 by lia. now rewrite Nat.sub_diag.
Qed.

Lemma sliceL_middle (c0 lst : string) (middle : list string) :
  sliceL (c0 :: middle ++ [lst]) 1 (lenL (c0 :: middle ++ [lst]) - 1)
  = Ok middle.
Proof.
  unfold sliceL, lenL. simpl List.length. rewrite length_app. simpl List.length.
  replace (Z.of_nat (S (List.length middle + 1)) - 1)
    with (Z.of_nat (S (List.length middle))) by lia.
  destruct (Z.leb_spec 1 (Z.of_nat (S (List.length middle)))); [|lia].
  destruct (Z.leb_spec (Z.of_nat (S (List.length middle)))
              (Z.of_nat (S (List.length middle + 1)))); [|lia].
  simpl andb. cbv iota.
  replace (Z.to_nat (Z.of_nat (S (List.length middle)) - 1))
    with (List.length middle) by lia.
  change (Z.to_nat 1) with 1%nat. simpl skipn.
  rewrite firstn_app, firstn_all, Nat.sub_diag. simpl. now rewrite app_nil_r.
Qed.

Lemma two_ends (c : list string) :
  2 <= lenL c -> exists c0 middle lst, c = (c0 :: middle ++ [lst])%list.
Proof.
  unfold lenL. destruct c as [|c0 c]; simpl List.length; [lia|].
  intros H. destruct (exists_last (l := c)) as (middle & lst & ->).
  - destruct c; [simpl in H; lia | discriminate].
  - now exists c0, middle, lst.
Qed.

Lemma take3_backticks (s : string) :
  String.eqb (take 3 s) backticks = true -> s = backticks ++ drop 3 s.
Proof.
  intros H. apply String.eqb_eq in H.
  rewrite <- H. symmetry. apply take_drop.
Qed.

(** A message that [isCodeMessage] accepts is an opening line that starts
    with the marker, any number of lines, and a closing line that is the
    marker. *)
Lemma isCodeMessage_true_lines (m : Message) :
  isCodeMessage m = Ok true ->
  exists (tag : string) (middle : list string),
    lines m = ((backticks ++ tag)%string :: middle ++ [backticks])%list.
Proof.
  unfold isCodeMessage.
  destruct (Z.ltb_spec (lenL (lines m)) 2) as [|Hlen]; [discriminate|].
  destruct (two_ends _ Hlen) as (c0 & middle & lst & Hc). rewrite Hc.
  rewrite indexL_head. unfold bind at 1. unfold slice_to.
  destruct ((0 <=? 3) && (3 <=? len c0)) eqn:E; [|discriminate].
  unfold bind at 1.
  destruct (String.eqb (take (Z.to_nat 3) c0) backticks) eqn:Eopen;
    [|discriminate].
  rewrite indexL_last. unfold bind. intros [= Hlast].
  apply String.eqb_eq in Hlast. subst lst.
  exists (drop 3 c0), middle. f_equal.
  apply take3_backticks. exact Eopen.
Qed.

(** Every outcome of [isCodeMessage], by the shape of the message. *)
Lemma isCodeMessage_cases (m : Message) :
  isCodeMessage m =
  if lenL (lines m) <? 2 then Ok false
  else if len (hd "" (lines m)) <? 3 then Panic
  else Ok (String.eqb (take 3 (hd "" (lines m))) backticks
           && String.eqb (last (lines m) "") backticks).
Proof.
  unfold isCodeMessage.
  destruct (Z.ltb_spec (lenL (lines m)) 2) as [|Hlen]; [reflexivity|].
  destruct (two_ends _ Hlen) as (c0 & middle & lst & Hc).
  assert (last (lines m) "" = lst) as ->.
  { rewrite Hc.
    change (c0 :: middle ++ [lst])%list with ((c0 :: middle) ++ [lst])%list.
    apply last_last. }
  assert (hd "" (lines m) = c0) as -> by now rewrite Hc.
  rewrite Hc, indexL_head, indexL_last. unfold bind, slice_to.
  destruct (Z.ltb_spec (len c0) 3), (Z.leb_spec 3 (len c0)); try lia.
  - now rewrite andb_false_r.
  - change (0 <=? 3) with true. cbn [andb]. change (Z.to_nat 3) with 3%nat.
    now destruct (String.eqb (take 3 c0) backticks).
Qed.

(** C2 (code defect): [isCodeMessage] is not total.  On a message of two
    lines or more whose first line has fewer than three bytes,
    [c[0][:3]] is out of range and the call panics where the claim
    promises [false]. *)
Theorem isCodeMessage_short_first_line_panics :
  isCodeMessage {| Content := "hi" ++ nl ++ "there" |} = Panic
  /\ (forall b : bool,
         isCodeMessage {| Content := "hi" ++ nl ++ "there" |} <> Ok b).
Proof.
  assert (isCodeMessage {| Content := "hi" ++ nl ++ "there" |} = Panic) as H
      by (vm_compute; reflexivity).
  split; [exact H|]. intros b Hb. congruence.
Qed.

(** ** The resolver *)

Lemma find_ext {A : Type} (f g : A -> bool) (l : list A) :
  (forall a, In a l -> f a = g a) -> find f l = find g l.
Proof.
  induction l as [|a l IH]; intros H; simpl; [reflexivity|].
  rewrite (H a) by now left.
  destruct (g a); [reflexivity|]. apply IH. intros b Hb. apply H. now right.
Qed.

Lemma find_first {A : Type} (f : A -> bool) (pre post : list A) (a : A) :
  (forall b, In b pre -> f b = false) -> f a = true ->
  find f (pre ++ a :: post) = Some a.
Proof.
  induction pre as [|b pre IH]; intros Hpre Ha; simpl.
  - now rewrite Ha.
  - rewrite (Hpre b) by now left. apply IH; [|exact Ha].
    intros c Hc. apply Hpre. now right.
Qed.

Section ResolverFacts.

Variable EqualFold : string -> string -> bool.

Lemma slice_from_tag (tag : string) : slice_from (backticks ++ tag) 3 = Ok tag.
Proof.
  rewrite slice_from_ok; [reflexivity|].
  rewrite len_app. change (len backticks) with 3.
  pose proof (len_nonneg tag). lia.
Qed.

(** The loop over the registry, run on the lines of a fenced message. *)
Lemma rangeMappings_fenced
  (reg : registry) (tag lst : string) (middle : list string) :
  rangeMappings EqualFold reg ((backticks ++ tag)%string :: middle ++ [lst])
  = Ok (resolve EqualFold reg tag, Join_LF middle).
Proof.
  induction reg as [|[i j] reg IH].
  - cbn [rangeMappings]. rewrite sliceL_middle. reflexivity.
  - cbn [rangeMappings].
    rewrite indexL_head, sliceL_middle. unfold bind at 1.
    rewrite slice_from_tag. unfold bind.
    unfold resolve. cbn [find]. unfold entryMatches at 1. cbn [fst snd].
    destruct (EqualFold tag i); [reflexivity|]. cbn [orb].
    destruct (aliasMatches EqualFold j tag); [reflexivity|].
    exact IH.
Qed.

Lemma getLanguage_fenced (reg : registry) (m : Message) :
  isCodeMessage m = Ok true ->
  exists middle : list string,
    lines m = ((backticks ++ rawTag m)%string :: middle ++ [backticks])%list
    /\ getLanguageAndCodeFromMessage EqualFold reg m
       = Ok (resolve EqualFold reg (rawTag m), Join_LF middle).
Proof.
  intros Hm. destruct (isCodeMessage_true_lines m Hm) as (tag & middle & Hc).
  assert (rawTag m = tag) as Htag by (unfold rawTag; now rewrite Hc).
  exists middle. rewrite Htag. split; [exact Hc|].
  unfold getLanguageAndCodeFromMessage. rewrite Hc.
  apply rangeMappings_fenced.
Qed.

(** Tags that fold to each other select the same entries. *)
Lemma resolve_fold_equal (reg : registry) (t t' : string) :
  (forall a b, EqualFold a b = EqualFold b a) ->
  (forall a b c, EqualFold a b = true -> EqualFold b c = true ->
                 EqualFold a c = true) ->
  EqualFold t t' = true ->
  resolve EqualFold reg t = resolve EqualFold reg t'.
Proof.
  intros Hsym Htrans Htt'.
  assert (forall x, EqualFold t x = EqualFold t' x) as Hname.
  { intros x. destruct (EqualFold t' x) eqn:E.
    - now apply Htrans with t'.
    - destruct (EqualFold t x) eqn:E'; [|reflexivity].
      rewrite <- E. symmetry. apply Htrans with t; [|exact E'].
      now rewrite Hsym. }
  assert (forall j, aliasMatches EqualFold j t = aliasMatches EqualFold j t')
    as Halias.
  { induction j as [|k j IH]; simpl; [reflexivity|].
    now rewrite (Hsym k t), (Hsym k t'), Hname, IH. }
  unfold resolve. rewrite (find_ext (entryMatches EqualFold t)
                                    (entryMatches EqualFold t')); [reflexivity|].
  intros e _. unfold entryMatches. now rewrite Hname, Halias.
Qed.

(** C4 (amended): the language returned is the name of the first entry,
    in the order the registry is visited, that matches the tag by its
    name or by one of its aliases (the empty string when there is
    none).  So a name that equals the tag is returned when no earlier
    entry matches the tag, and when no name equals the tag the first
    entry with a matching alias is returned. *)
Theorem resolution_first_matching_entry (reg : registry) (m : Message) :
  isCodeMessage m = Ok true ->
  exists lang code : string,
    getLanguageAndCodeFromMessage EqualFold reg m = Ok (lang, code)
    /\ lang = match find (fun e => EqualFold (rawTag m) (fst e)
                                   || aliasMatches EqualFold (snd e) (rawTag m))
                         reg with
              | Some e => fst e
              | None => ""
              end
    /\ (forall pre i j post,
           reg = (pre ++ (i, j) :: post)%list ->
           EqualFold (rawTag m) i = true ->
           (forall e, In e pre ->
                      EqualFold (rawTag m) (fst e) = false
                      /\ aliasMatches EqualFold (snd e) (rawTag m) = false) ->
           lang = i)
    /\ ((forall e, In e reg -> EqualFold (rawTag m) (fst e) = false) ->
        lang = match find (fun e => aliasMatches EqualFold (snd e) (rawTag m))
                          reg with
               | Some e => fst e
               | None => ""
               end).
Proof.
  intros Hm. destruct (getLanguage_fenced reg m Hm) as (middle & _ & Hget).
  exists (resolve EqualFold reg (rawTag m)), (Join_LF middle).
  split; [exact Hget|]. split; [reflexivity|]. split.
  - intros pre i j post -> Hi Hpre. unfold resolve.
    rewrite find_first; [reflexivity| |].
    + intros e He. destruct (Hpre e He) as [Hn Ha].
      unfold entryMatches. now rewrite Hn, Ha.
    + unfold entryMatches. cbn [fst snd]. now rewrite Hi.
  - intros Hnames. unfold resolve.
    rewrite (find_ext (entryMatches EqualFold (rawTag m))
               (fun e => aliasMatches EqualFold (snd e) (rawTag m)));
      [reflexivity|].
    intros e He. unfold entryMatches. now rewrite (Hnames e He).
Qed.

End ResolverFacts.

(** *** The ASCII instance of [EqualFold] and the scenarios *)

Lemma EqualFoldASCII_sym (a b : string) : EqualFoldASCII a b = EqualFoldASCII b a.
Proof. unfold EqualFoldASCII. apply String.eqb_sym. Qed.

Lemma EqualFoldASCII_trans (a b c : string) :
  EqualFoldASCII a b = true -> EqualFoldASCII b c = true ->
  EqualFoldASCII a c = true.
Proof.
  unfold EqualFoldASCII. rewrite !String.eqb_eq. congruence.
Qed.

(** Scenarios 1, 2 and 6 of the specification. *)
Example extract_python :
  isCodeMessage (pythonMessage "python") = Ok true
  /\ rawTag (pythonMessage "python") = "python"
  /\ getLanguageAndCodeFromMessage EqualFoldASCII sampleRegistry
       (pythonMessage "python") = Ok ("python", "print(1)").
Proof. repeat split; vm_compute; reflexivity. Qed.

Example resolve_alias_py3 :
  getLanguageAndCodeFromMessage EqualFoldASCII sampleRegistry
    (pythonMessage "py3") = Ok ("python", "print(1)").
Proof. vm_compute; reflexivity. Qed.

Example fences_only :
  isCodeMessage {| Content := backticks ++ nl ++ backticks |} = Ok true
  /\ getLanguageAndCodeFromMessage EqualFoldASCII sampleRegistry
       {| Content := backticks ++ nl ++ backticks |} = Ok ("", "").
Proof. split; vm_compute; reflexivity. Qed.

(** C4, as stated, fails: a name that equals the tag does not win over an
    alias of an entry visited earlier.  Here the tag [c] is the name of
    the second entry and an alias of the first, and the first is
    returned. *)
Lemma canonical_precedence_counterexample :
  let reg := [("python", ["py"; "c"]); ("c", ["gcc"])] in
  let m := {| Content := backticks ++ "c" ++ nl ++ "int x;" ++ nl ++ backticks |} in
  isCodeMessage m = Ok true
  /\ rawTag m = "c"
  /\ EqualFoldASCII (rawTag m) "c" = true
  /\ In "c" (map fst reg)
  /\ getLanguageAndCodeFromMessage EqualFoldASCII reg m = Ok ("python", "int x;")
  /\ getLanguageAndCodeFromMessage EqualFoldASCII reg m <> Ok ("c", "int x;").
Proof.
  cbv zeta. repeat split; try (vm_compute; reflexivity).
  - right; left; reflexivity.
  - vm_compute. discriminate.
Qed.

Lemma resolution_first_matching_entry_witness :
  isCodeMessage (pythonMessage "py3") = Ok true
  /\ exists lang code : string,
      getLanguageAndCodeFromMessage EqualFoldASCII sampleRegistry
        (pythonMessage "py3") = Ok (lang, code)
      /\ lang = "python".
Proof.
  assert (isCodeMessage (pythonMessage "py3") = Ok true) as H
      by (vm_compute; reflexivity).
  split; [exact H|].
  destruct (resolution_first_matching_entry EqualFoldASCII sampleRegistry
              (pythonMessage "py3") H) as (lang & code & Hget & Hlang & _).
  exists lang, code. split; [exact Hget|exact Hlang].
Defined.

(** *** The language option of [/run] *)

Lemma stringInSlice_In (s : string) (a : list string) :
  stringInSlice s a = true <-> In s a.
Proof.
  induction a as [|i a IH]; simpl.
  - split; [discriminate|tauto].
  - destruct (String.eqb_spec i s) as [->|Hne].
    + split; auto.
    + rewrite IH. split; [auto|]. intros [H|H]; [congruence|exact H].
Qed.

(** C8, as stated, fails on the option of [/run]: the option is looked up
    in [languages] with [==], so [Python] is refused where [python] is
    run, although the two fold to each other. *)
Lemma run_option_case_counterexample :
  EqualFoldASCII "Python" "python" = true
  /\ runLanguage ["c"; "python"] ["python"] "" "print(1)"
     = Exec "python" "print(1)"
  /\ runLanguage ["c"; "python"] ["Python"] "" "print(1)"
     = NotSupported "Python".
Proof. repeat split; vm_compute; reflexivity. Qed.

(** ** Cropping *)

Lemma get_in_range (n : nat) (s : string) :
  (n < String.length s)%nat -> exists a, String.get n s = Some a.
Proof.
  revert n; induction s as [|b s IH]; intros n H; simpl in H; [lia|].
  destruct n as [|n]; simpl; [now exists b|]. apply IH. lia.
Qed.

Lemma index_in_range (s : string) (i : Z) :
  0 <= i < len s ->
  exists a, String.get (Z.to_nat i) s = Some a /\ index s i = Ok a.
Proof.
  intros H. destruct (get_in_range (Z.to_nat i) s) as (a & Ha).
  - unfold len in H. lia.
  - exists a. split; [exact Ha|]. unfold index. rewrite Ha.
    destruct (Z.leb_spec 0 i), (Z.ltb_spec i (len s)); simpl; auto; lia.
Qed.

Lemma ilog10_fuel_range (fuel k : nat) (c : Z) :
  0 <= c < 10 ^ Z.of_nat (S k) -> 0 <= ilog10_fuel fuel c <= Z.of_nat k.
Proof.
  revert k c.
  induction fuel as [|fuel IH]; intros k c Hc; cbn [ilog10_fuel]; [lia|].
  destruct (Z.ltb_spec c 10) as [|Hge]; [lia|].
  destruct k as [|k].
  - change (10 ^ Z.of_nat 1) with 10 in Hc. lia.
  - assert (0 <= c / 10 < 10 ^ Z.of_nat (S k)) as Hdiv.
    { split; [apply Z.div_pos; lia|].
      apply Z.div_lt_upper_bound; [lia|].
      replace (Z.of_nat (S (S k))) with (Z.succ (Z.of_nat (S k))) in Hc by lia.
      rewrite Z.pow_succ_r in Hc by lia. apply Hc. }
    specialize (IH k (c / 10) Hdiv). lia.
Qed.

Lemma ilog10_range (c : Z) : 1 <= c <= GoInt.max_int -> 0 <= ilog10 c <= 18.
Proof.
  intros Hc. apply (ilog10_fuel_range 20 18).
  unfold GoInt.max_int in Hc. split; [lia|].
  apply Z.le_lt_trans with (2 ^ 63 - 1); [lia|]. vm_compute. reflexivity.
Qed.

Section CropFacts.

Variable log10int : Z -> Z.

Hypothesis log10int_range :
  forall c, 1 <= c <= GoInt.max_int -> 0 <= log10int c <= 18.

(** The cut the code makes: the raw index is inside the text, with at
    least three bytes before it, and the result is cut at [finalCut]. *)
Lemma cropMessage_cut (toCrop : string) (buffer : Z) :
  noWrap toCrop buffer -> buffer <= 456 ->
  MSG_CHAR_LIM <= len toCrop + buffer ->
  3 <= rawCut log10int toCrop buffer < len toCrop
  /\ cropMessage log10int toCrop buffer
     = Ok (take (Z.to_nat (finalCut toCrop (rawCut log10int toCrop buffer)))
             toCrop,
           len toCrop - finalCut toCrop (rawCut log10int toCrop buffer))
  /\ rawCut log10int toCrop buffer - 2
     <= finalCut toCrop (rawCut log10int toCrop buffer)
     <= rawCut log10int toCrop buffer.
Proof.
  unfold noWrap, MSG_CHAR_LIM. intros (Hb & Hl & Hlb) Hb' Hge.
  pose proof (len_nonneg toCrop) as Hl0.
  assert (0 <= log10int (len toCrop - (500 - buffer - 22)) <= 18) as Hd
      by (apply log10int_range; lia).
  unfold rawCut, MSG_CHAR_LIM.
  set (e := 500 - buffer - 22
            - (log10int (len toCrop - (500 - buffer - 22)) + 1)) in *.
  assert (3 <= e < len toCrop) as He by (unfold e; lia).
  split; [exact He|].
  unfold cropMessage, MSG_CHAR_LIM. cbv zeta.
  assert (GoInt.add (len toCrop) buffer = len toCrop + buffer) as -> by (unwrap; lia).
  destruct (Z.ltb_spec (len toCrop + buffer) 500); [lia|].
  assert (GoInt.sub 500 buffer = 500 - buffer) as -> by (unwrap; lia).
  assert (GoInt.sub (500 - buffer) 22 = 500 - buffer - 22) as -> by (unwrap; lia).
  assert (GoInt.sub (len toCrop) (500 - buffer - 22)
          = len toCrop - (500 - buffer - 22)) as -> by (unwrap; lia).
  assert (GoInt.add (log10int (len toCrop - (500 - buffer - 22))) 1
          = log10int (len toCrop - (500 - buffer - 22)) + 1) as ->
      by (unwrap; lia).
  assert (GoInt.sub (500 - buffer - 22)
            (log10int (len toCrop - (500 - buffer - 22)) + 1) = e) as ->
      by (unwrap; unfold e; lia).
  assert (GoInt.sub e 1 = e - 1) as -> by (unwrap; lia).
  assert (GoInt.sub e 2 = e - 2) as -> by (unwrap; lia).
  assert (GoInt.sub e 3 = e - 3) as -> by (unwrap; lia).
  destruct (index_in_range toCrop (e - 1)) as (c1 & G1 & I1); [lia|].
  destruct (index_in_range toCrop (e - 2)) as (c2 & G2 & I2); [lia|].
  destruct (index_in_range toCrop (e - 3)) as (c3 & G3 & I3); [lia|].
  unfold finalCut. rewrite G1, G2, G3, I2. unfold bind at 1.
  destruct (Ascii.eqb c2 slash).
  - rewrite I3. unfold bind at 2. unfold bind at 1.
    destruct (Ascii.eqb c3 slash); cbn [negb andb].
    + rewrite I1. unfold bind at 2. unfold bind at 1.
      destruct (Ascii.eqb c1 slash).
      * assert (GoInt.sub (len toCrop) (e - 1) = len toCrop - (e - 1)) as ->
            by (unwrap; lia).
        rewrite slice_to_ok by lia. split; [reflexivity|lia].
      * assert (GoInt.sub (len toCrop) e = len toCrop - e) as ->
            by (unwrap; lia).
        rewrite slice_to_ok by lia. split; [reflexivity|lia].
    + unfold bind at 1.
      assert (GoInt.sub (len toCrop) (e - 2) = len toCrop - (e - 2)) as ->
          by (unwrap; lia).
      rewrite slice_to_ok by lia. split; [reflexivity|lia].
  - unfold bind at 1. cbn [andb].
    rewrite I1. unfold bind at 2. unfold bind at 1.
    destruct (Ascii.eqb c1 slash).
    + assert (GoInt.sub (len toCrop) (e - 1) = len toCrop - (e - 1)) as ->
          by (unwrap; lia).
      rewrite slice_to_ok by lia. split; [reflexivity|lia].
    + assert (GoInt.sub (len toCrop) e = len toCrop - e) as ->
          by (unwrap; lia).
      rewrite slice_to_ok by lia. split; [reflexivity|lia].
Qed.

End CropFacts.

(** C6, as stated for every buffer, fails: with a buffer near the limit
    the cut index is negative, [toCrop[end-2]] is out of range and the
    call panics instead of returning a prefix. *)
Lemma cropMessage_large_buffer_counterexample :
  MSG_CHAR_LIM <= len (repeat_char 30 "A") + 480
  /\ cropMessage ilog10 (repeat_char 30 "A") 480 = Panic.
Proof.
  split; [vm_compute; congruence|vm_compute; reflexivity].
Qed.

(** C7, as stated, fails: the code does not look at the two bytes right
    before the cut.  Here the raw cut is 450, the bytes before it are a
    non-slash (index 448) and a slash (index 449): the claim moves the
    cut back by two, to 448, and the code moves it back by one, to 449. *)
Lemma cropMessage_separator_counterexample :
  let toCrop := repeat_char 449 "A" ++ "/" ++ repeat_char 50 "A" in
  rawCut ilog10 toCrop messageCreate_buffer = 450
  /\ String.get 448 toCrop = Some "A"%char
  /\ String.get 449 toCrop = Some slash
  /\ claimedCut toCrop 450 = 448
  /\ cropMessage ilog10 toCrop messageCreate_buffer
     = Ok (take 449 toCrop, len toCrop - 449)
  /\ cropMessage ilog10 toCrop messageCreate_buffer
     <> Ok (take 448 toCrop, len toCrop - 448).
Proof.
  cbv zeta. repeat split; try (vm_compute; reflexivity).
  vm_compute. discriminate.
Qed.

(** * Further properties of the code *)

(** ** The chunker: sizes, contents and panics *)

Lemma drop_drop (a b : nat) (s : string) : drop a (drop b s) = drop (b + a) s.
Proof.
  revert s. induction b as [|b IH]; intros s; [reflexivity|].
  destruct s as [|c s]; simpl; [now destruct a|]. apply IH.
Qed.

Lemma last_map_fence (ps : list string) :
  ps <> [] -> last (map fence ps) EmptyString = fence (last ps EmptyString).
Proof.
  induction ps as [|p [|q ps] IH]; intros H; [congruence|reflexivity|].
  change (last (map fence (p :: q :: ps)) EmptyString)
    with (last (map fence (q :: ps)) EmptyString).
  change (last (p :: q :: ps) EmptyString) with (last (q :: ps) EmptyString).
  apply IH. discriminate.
Qed.

(** The payloads the loop produces, by position: block [i] of the output
    starts at byte [i * limit]; every fragment but the last carries the
    first [limit - 8] bytes of its block and the last one carries all
    that is left, which is at most [limit] bytes. *)
Lemma splitLoop_chunks (limit : Z) :
  8 <= limit <= GoInt.max_int ->
  forall (n : nat) (output : string) (messages : list string),
    (String.length output <= n)%nat ->
    exists ps : list string,
      splitLoop output limit messages = Ok (messages ++ map fence ps)%list
      /\ ps <> []
      /\ (forall i : nat,
             (i < List.length ps)%nat ->
             nth i ps EmptyString
             = if (S i <? List.length ps)%nat
               then substring_at (i * Z.to_nat limit) (Z.to_nat (limit - 8)) output
               else drop (i * Z.to_nat limit) output)
      /\ len (last ps EmptyString) <= limit
      /\ Forall (fun p => len p = limit - 8) (removelast ps).
Proof.
  intros Hlim. induction n as [|n IH]; intros output messages Hn.
  - exists [output]. rewrite splitLoop_last by (unfold len; lia).
    repeat split; try discriminate; try constructor.
    + intros [|i] Hi; simpl in Hi; [reflexivity|lia].
    + simpl. unfold len. lia.
  - destruct (Z_le_gt_dec (len output) limit) as [Hle|Hgt].
    + exists [output]. rewrite splitLoop_last by assumption.
      repeat split; try discriminate; try constructor.
      * intros [|i] Hi; simpl in Hi; [reflexivity|lia].
      * exact Hle.
    + rewrite splitLoop_step by lia.
      set (rest := drop (Z.to_nat limit) output).
      set (chunk := take (Z.to_nat (limit - 8)) output).
      destruct (IH rest (messages ++ [fence chunk])%list)
        as (ps & Hps & Hne & Hnth & Hlast & Hall).
      { unfold rest. rewrite length_drop. unfold len in Hgt. lia. }
      exists (chunk :: ps). split; [|split; [|split; [|split]]].
      * rewrite Hps, <- app_assoc. reflexivity.
      * discriminate.
      * intros [|i] Hi.
        -- destruct ps as [|p ps]; [congruence|]. reflexivity.
        -- simpl in Hi. change (nth (S i) (chunk :: ps) EmptyString)
             with (nth i ps EmptyString).
           rewrite Hnth by lia.
           change (S (S i) <? List.length (chunk :: ps))%nat
             with (S i <? List.length ps)%nat.
           unfold substring_at, rest. rewrite drop_drop.
           replace (Z.to_nat limit + i * Z.to_nat limit)%nat
             with (S i * Z.to_nat limit)%nat by lia.
           reflexivity.
      * destruct ps as [|p ps]; [congruence|]. exact Hlast.
      * destruct ps as [|p ps]; [congruence|].
        change (removelast (chunk :: p :: ps))
          with (chunk :: removelast (p :: ps)).
        constructor; [|assumption].
        unfold chunk, len. rewrite length_take. unfold len in Hgt. lia.
Qed.

Lemma splitOutput_total_payload_witness :
  8 <= 500 <= GoInt.max_int
  /\ exists fragments : list string,
      splitOutput (repeat_char 1200 "A") 500 = Ok fragments
      /\ len (joinPayloads fragments)
         = len (repeat_char 1200 "A") - 8 * (lenL fragments - 1).
Proof.
  assert (8 <= 500 <= GoInt.max_int) as H by (vm_compute; split; congruence).
  split; [exact H|].
  exact (splitOutput_total_payload (repeat_char 1200 "A") 500 H).
Defined.

(** The fragments give the output back exactly when the output is no
    longer than the limit, that is, when there is a single fragment. *)
Theorem splitOutput_lossless_iff (output : string) (limit : Z) :
  8 <= limit <= GoInt.max_int ->
  exists fragments : list string,
    splitOutput output limit = Ok fragments
    /\ (joinPayloads fragments = output <-> len output <= limit).
Proof.
  intros Hlim. destruct (Z_le_gt_dec (len output) limit) as [Hle|Hgt].
  - exists [fence output]. unfold splitOutput.
    rewrite splitLoop_last by assumption. split; [reflexivity|].
    unfold joinPayloads. simpl. rewrite payload_fence. tauto.
  - destruct (splitLoop_payloads limit Hlim (String.length output) output [])
      as (ps & Hps & _ & Hcount & _ & Htotal); [lia|].
    exists (map fence ps). split; [exact Hps|].
    unfold joinPayloads. rewrite map_payload_fence.
    split; [|lia]. intros Heq. rewrite Heq in Htotal.
    unfold fragmentCount in Hcount.
    pose proof (len_nonneg output).
    destruct (Z.eqb_spec (len output) 0); [lia|].
    assert (2 <= (len output + limit - 1) / limit)
      by (apply Z.div_le_lower_bound; lia).
    lia.
Qed.

Lemma splitOutput_lossless_iff_witness :
  8 <= 500 <= GoInt.max_int
  /\ exists fragments : list string,
      splitOutput (repeat_char 501 "A") 500 = Ok fragments
      /\ (joinPayloads fragments = repeat_char 501 "A"
          <-> len (repeat_char 501 "A") <= 500).
Proof.
  assert (8 <= 500 <= GoInt.max_int) as H by (vm_compute; split; congruence).
  split; [exact H|].
  exact (splitOutput_lossless_iff (repeat_char 501 "A") 500 H).
Defined.

(** Every fragment but the last is exactly [limit] bytes long, and the
    last one has between 8 and [limit + 8] bytes. *)
Theorem splitOutput_fragment_sizes (output : string) (limit : Z) :
  8 <= limit <= GoInt.max_int ->
  exists fragments : list string,
    splitOutput output limit = Ok fragments
    /\ Forall (fun f => len f = limit) (removelast fragments)
    /\ 8 <= len (last fragments EmptyString) <= limit + 8.
Proof.
  intros Hlim.
  destruct (splitLoop_chunks limit Hlim (String.length output) output [])
    as (ps & Hps & Hne & _ & Hlast & Hall); [lia|].
  exists (map fence ps). split; [exact Hps|]. split.
  - rewrite removelast_map. apply Forall_forall. intros f Hf.
    apply in_map_iff in Hf. destruct Hf as (p & <- & Hp).
    rewrite len_fence.
    assert (len p = limit - 8) by (revert p Hp; now apply Forall_forall).
    lia.
  - rewrite last_map_fence by assumption. rewrite len_fence.
    pose proof (len_nonneg (last ps EmptyString)). lia.
Qed.

Lemma splitOutput_fragment_sizes_witness :
  8 <= 500 <= GoInt.max_int
  /\ exists fragments : list string,
      splitOutput (repeat_char 1200 "A") 500 = Ok fragments
      /\ Forall (fun f => len f = 500) (removelast fragments)
      /\ 8 <= len (last fragments EmptyString) <= 500 + 8.
Proof.
  assert (8 <= 500 <= GoInt.max_int) as H by (vm_compute; split; congruence).
  split; [exact H|].
  exact (splitOutput_fragment_sizes (repeat_char 1200 "A") 500 H).
Defined.

(** The fragments by position: fragment [i] is the fenced
    [output[i*limit : i*limit + limit - 8]] when it is not the last, and
    the fenced [output[i*limit:]] when it is. *)
Theorem splitOutput_fragment_contents (output : string) (limit : Z) :
  8 <= limit <= GoInt.max_int ->
  exists payloads : list string,
    splitOutput output limit = Ok (map fence payloads)
    /\ forall i : nat,
        (i < List.length payloads)%nat ->
        nth i payloads EmptyString
        = if (S i <? List.length payloads)%nat
          then substring_at (i * Z.to_nat limit) (Z.to_nat (limit - 8)) output
          else drop (i * Z.to_nat limit) output.
Proof.
  intros Hlim.
  destruct (splitLoop_chunks limit Hlim (String.length output) output [])
    as (ps & Hps & _ & Hnth & _); [lia|].
  exists ps. split; [exact Hps|exact Hnth].
Qed.

Lemma splitOutput_fragment_contents_witness :
  8 <= 9 <= GoInt.max_int
  /\ exists payloads : list string,
      splitOutput "0123456789abcdefghij" 9 = Ok (map fence payloads)
      /\ forall i : nat,
          (i < List.length payloads)%nat ->
          nth i payloads EmptyString
          = if (S i <? List.length payloads)%nat
            then substring_at (i * Z.to_nat 9) (Z.to_nat (9 - 8))
                   "0123456789abcdefghij"
            else drop (i * Z.to_nat 9) "0123456789abcdefghij".
Proof.
  assert (8 <= 9 <= GoInt.max_int) as H by (vm_compute; split; congruence).
  split; [exact H|].
  exact (splitOutput_fragment_contents "0123456789abcdefghij" 9 H).
Defined.

(** [splitOutput] panics exactly when the limit is under the 8 bytes of
    decoration and the output is longer than the limit. *)
Theorem splitOutput_panics_iff (output : string) (limit : Z) :
  limit <= GoInt.max_int ->
  (splitOutput output limit = Panic <-> limit < 8 /\ limit < len output).
Proof.
  intros Hmax. split.
  - intros Hp.
    destruct (Z_le_gt_dec (len output) limit) as [Hle|Hgt].
    + unfold splitOutput in Hp. rewrite splitLoop_last in Hp by assumption.
      discriminate.
    + destruct (Z_lt_le_dec limit 8) as [Hlt|Hge]; [lia|].
      destruct (splitLoop_payloads limit (conj Hge Hmax)
                  (String.length output) output [])
        as (ps & Hps & _); [lia|].
      unfold splitOutput in Hp. congruence.
  - intros [H8 Hlen]. now apply splitOutput_small_limit.
Qed.

Lemma splitOutput_panics_iff_witness :
  7 <= GoInt.max_int
  /\ (splitOutput "12345678" 7 = Panic <-> 7 < 8 /\ 7 < len "12345678").
Proof.
  assert (7 <= GoInt.max_int) as H by (vm_compute; congruence).
  split; [exact H|].
  exact (splitOutput_panics_iff "12345678" 7 H).
Defined.

(** ** The extractor: panics, line endings and round trips *)

Lemma append_assoc_s (s t u : string) : (s ++ t) ++ u = s ++ (t ++ u).
Proof. induction s as [|a s IH]; simpl; [reflexivity|now rewrite IH]. Qed.

Lemma contains_app (c : ascii) (s t : string) :
  contains c (s ++ t) = contains c s || contains c t.
Proof.
  induction s as [|a s IH]; simpl; [reflexivity|].
  now rewrite IH, orb_assoc.
Qed.

Lemma ReplaceAll_CRLF_noLF (s : string) :
  contains LF s = false -> ReplaceAll_CRLF s = s.
Proof.
  induction s as [|a s IH]; [reflexivity|].
  intros H. cbn [contains] in H. apply orb_false_elim in H.
  destruct H as [_ Hs]. specialize (IH Hs).
  destruct s as [|b s]; [reflexivity|].
  cbn [ReplaceAll_CRLF] in *. cbn [contains] in Hs.
  apply orb_false_elim in Hs. destruct Hs as [Hb _].
  rewrite Hb, andb_false_r. now rewrite IH.
Qed.

Lemma ReplaceAll_CRLF_noCR (s : string) :
  contains CR s = false -> ReplaceAll_CRLF s = s.
Proof.
  induction s as [|a s IH]; [reflexivity|].
  intros H. cbn [contains] in H. apply orb_false_elim in H.
  destruct H as [Ha Hs]. specialize (IH Hs).
  destruct s as [|b s]; [reflexivity|].
  cbn [ReplaceAll_CRLF] in *. rewrite Ha. cbn [andb]. now rewrite IH.
Qed.

Lemma ReplaceAll_CRLF_toCRLF (s : string) :
  contains CR s = false -> ReplaceAll_CRLF (toCRLF s) = s.
Proof.
  induction s as [|a s IH]; [reflexivity|].
  intros H. cbn [contains] in H. apply orb_false_elim in H.
  destruct H as [Ha Hs]. specialize (IH Hs). cbn [toCRLF].
  destruct (Ascii.eqb_spec a LF) as [->|Hne].
  - cbn [ReplaceAll_CRLF]. rewrite !Ascii.eqb_refl. cbn [andb]. now rewrite IH.
  - destruct (toCRLF s) as [|b t] eqn:E.
    + cbn [ReplaceAll_CRLF] in *. now rewrite <- IH.
    + cbn [ReplaceAll_CRLF] in *. rewrite Ha. cbn [andb]. now rewrite IH.
Qed.

Lemma Split_LF_nonempty (s : string) : Split_LF s <> [].
Proof.
  induction s as [|a s IH]; simpl; [discriminate|].
  destruct (Ascii.eqb a LF); [discriminate|].
  destruct (Split_LF s); discriminate.
Qed.

Lemma Split_LF_app (s t : string) :
  Split_LF (s ++ String LF t) = (Split_LF s ++ Split_LF t)%list.
Proof.
  induction s as [|a s IH].
  - reflexivity.
  - cbn [append Split_LF]. rewrite IH.
    destruct (Ascii.eqb a LF); [reflexivity|].
    pose proof (Split_LF_nonempty s) as Hne.
    destruct (Split_LF s); [congruence|reflexivity].
Qed.

Lemma Split_LF_noLF (s : string) : contains LF s = false -> Split_LF s = [s].
Proof.
  induction s as [|a s IH]; [reflexivity|].
  intros H. cbn [contains] in H. apply orb_false_elim in H.
  destruct H as [Ha Hs]. cbn [Split_LF]. now rewrite Ha, (IH Hs).
Qed.

Lemma Join_Split (s : string) : Join_LF (Split_LF s) = s.
Proof.
  unfold Join_LF. induction s as [|a s IH]; [reflexivity|].
  cbn [Split_LF]. destruct (Ascii.eqb_spec a LF) as [->|Hne].
  - pose proof (Split_LF_nonempty s) as Hne.
    destruct (Split_LF s) as [|l ls] eqn:E; [congruence|].
    change (String.concat nl (EmptyString :: l :: ls))
      with (EmptyString ++ nl ++ String.concat nl (l :: ls)).
    rewrite IH. reflexivity.
  - pose proof (Split_LF_nonempty s) as Hne'.
    destruct (Split_LF s) as [|l ls] eqn:E; [congruence|].
    destruct ls as [|l' ls].
    + simpl in *. now rewrite IH.
    + change (String.concat nl (String a l :: l' :: ls))
        with (String a (l ++ nl ++ String.concat nl (l' :: ls))).
      change (String.concat nl (l :: l' :: ls))
        with (l ++ nl ++ String.concat nl (l' :: ls)) in IH.
      now rewrite IH.
Qed.

(** The lines of a code message make [isCodeMessage] answer [true]. *)
Lemma isCodeMessage_of_lines (m : Message) (tag : string) (middle : list string) :
  lines m = ((backticks ++ tag)%string :: middle ++ [backticks])%list ->
  isCodeMessage m = Ok true.
Proof.
  intros Hc. rewrite isCodeMessage_cases, Hc.
  assert ((lenL ((backticks ++ tag)%string :: middle ++ [backticks])%list <? 2)
          = false) as ->.
  { apply Z.ltb_ge. unfold lenL. simpl List.length. rewrite length_app.
    simpl List.length. lia. }
  cbn [hd].
  assert ((len (backticks ++ tag) <? 3) = false) as ->.
  { apply Z.ltb_ge. rewrite len_app. change (len backticks) with 3.
    pose proof (len_nonneg tag). lia. }
  change ((backticks ++ tag)%string :: middle ++ [backticks])%list
    with (((backticks ++ tag)%string :: middle) ++ [backticks])%list.
  rewrite last_last. reflexivity.
Qed.

Lemma lines_fencedMessage (tag code : string) :
  contains LF tag = false -> contains CR tag = false ->
  contains CR code = false ->
  lines (fencedMessage tag code)
  = ((backticks ++ tag)%string :: Split_LF code ++ [backticks])%list.
Proof.
  intros Hlf Hcr Hcode. unfold lines, fencedMessage. cbn [Content].
  rewrite ReplaceAll_CRLF_noCR.
  - replace (backticks ++ tag ++ nl ++ code ++ nl ++ backticks)
      with ((backticks ++ tag) ++ String LF (code ++ String LF backticks))
      by (rewrite append_assoc_s; reflexivity).
    rewrite !Split_LF_app, Split_LF_noLF.
    + reflexivity.
    + rewrite contains_app, Hlf. reflexivity.
  - rewrite !contains_app, Hcr, Hcode. reflexivity.
Qed.

(** [isCodeMessage] panics exactly on the messages of two lines or more
    whose first line has fewer than three bytes. *)
Theorem isCodeMessage_panics_iff (m : Message) :
  isCodeMessage m = Panic
  <-> 2 <= lenL (lines m) /\ len (hd EmptyString (lines m)) < 3.
Proof.
  rewrite isCodeMessage_cases.
  destruct (Z.ltb_spec (lenL (lines m)) 2);
    destruct (Z.ltb_spec (len (hd EmptyString (lines m))) 3);
    split; intros H'; try discriminate; try lia; reflexivity.
Qed.

Section ExtractorFacts.

Variable EqualFold : string -> string -> bool.

(** Round trip: a message written as the marker and a tag, the code, and
    the marker, with no carriage return in it, is accepted, its tag is
    read back, and the code returned is the code written, byte for
    byte. *)
Theorem fenced_round_trip (reg : registry) (tag code : string) :
  contains LF tag = false -> contains CR tag = false ->
  contains CR code = false ->
  isCodeMessage (fencedMessage tag code) = Ok true
  /\ rawTag (fencedMessage tag code) = tag
  /\ getLanguageAndCodeFromMessage EqualFold reg (fencedMessage tag code)
     = Ok (resolve EqualFold reg tag, code).
Proof.
  intros Hlf Hcr Hcode.
  pose proof (lines_fencedMessage tag code Hlf Hcr Hcode) as Hc.
  split; [now apply isCodeMessage_of_lines with tag (Split_LF code)|].
  split.
  - unfold rawTag. rewrite Hc. reflexivity.
  - unfold getLanguageAndCodeFromMessage. rewrite Hc.
    rewrite rangeMappings_fenced, Join_Split. reflexivity.
Qed.

(** Without the check of [isCodeMessage]: on a message of a single line
    [isCodeMessage] answers [false], and
    [getLanguageAndCodeFromMessage] panics, whatever the registry. *)
Theorem one_line_message (reg : registry) (m : Message) :
  contains LF (Content m) = false ->
  isCodeMessage m = Ok false
  /\ getLanguageAndCodeFromMessage EqualFold reg m = Panic.
Proof.
  intros Hlf.
  assert (lines m = [Content m]) as Hl.
  { unfold lines. rewrite ReplaceAll_CRLF_noLF by assumption.
    now apply Split_LF_noLF. }
  split.
  - unfold isCodeMessage. rewrite Hl. reflexivity.
  - unfold getLanguageAndCodeFromMessage. rewrite Hl.
    destruct reg as [|[i j] reg]; [reflexivity|].
    cbn [rangeMappings]. rewrite indexL_head. unfold bind at 1.
    destruct (slice_from (Content m) 3); reflexivity.
Qed.

Lemma aliasMatches_exists (j : list string) (test : string) :
  aliasMatches EqualFold j test = true
  <-> exists k, In k j /\ EqualFold k test = true.
Proof.
  induction j as [|k j IH]; simpl.
  - split; [discriminate|]. now intros (k & [] & _).
  - destruct (EqualFold k test) eqn:E.
    + split; [|reflexivity]. intros _. exists k. auto.
    + rewrite IH. split.
      * intros (k' & Hin & Hk'). exists k'. auto.
      * intros (k' & [->|Hin] & Hk'); [congruence|]. exists k'. auto.
Qed.

(** The language returned for an accepted message is never made up: it
    is the name of a registry entry whose name, or one of whose aliases,
    folds to the tag; or it is empty, and then no name or alias of the
    registry folds to the tag unless the empty name itself is
    registered. *)
Theorem resolved_language_is_registered (reg : registry) (m : Message) :
  isCodeMessage m = Ok true ->
  exists lang code : string,
    getLanguageAndCodeFromMessage EqualFold reg m = Ok (lang, code)
    /\ ((exists aliases : list string,
            In (lang, aliases) reg
            /\ (EqualFold (rawTag m) lang = true
                \/ exists k, In k aliases /\ EqualFold k (rawTag m) = true))
        \/ (lang = EmptyString
            /\ forall name aliases, In (name, aliases) reg ->
                 EqualFold (rawTag m) name = false
                 /\ forall k, In k aliases -> EqualFold k (rawTag m) = false)).
Proof.
  intros Hm. destruct (getLanguage_fenced EqualFold reg m Hm)
    as (middle & _ & Hget).
  exists (resolve EqualFold reg (rawTag m)), (Join_LF middle).
  split; [exact Hget|]. unfold resolve.
  destruct (find (entryMatches EqualFold (rawTag m)) reg) as [[i j]|] eqn:E.
  - left. apply find_some in E. destruct E as [Hin Hmatch].
    exists j. split; [exact Hin|]. unfold entryMatches in Hmatch.
    cbn [fst snd] in *. apply orb_prop in Hmatch.
    destruct Hmatch as [H|H]; [now left|right].
    now apply aliasMatches_exists.
  - right. split; [reflexivity|]. intros name aliases Hin.
    pose proof (find_none _ _ E _ Hin) as Hno. unfold entryMatches in Hno.
    cbn [fst snd] in Hno. apply orb_false_elim in Hno.
    destruct Hno as [Hn Ha]. split; [exact Hn|]. intros k Hk.
    destruct (EqualFold k (rawTag m)) eqn:Ek; [|reflexivity].
    rewrite <- Ha. symmetry. apply aliasMatches_exists. now exists k.
Qed.

End ExtractorFacts.

Lemma fenced_round_trip_witness :
  contains LF "py3" = false
  /\ contains CR "py3" = false
  /\ contains CR ("print(1)" ++ nl ++ "print(2)") = false
  /\ isCodeMessage (fencedMessage "py3" ("print(1)" ++ nl ++ "print(2)"))
     = Ok true
  /\ rawTag (fencedMessage "py3" ("print(1)" ++ nl ++ "print(2)")) = "py3"
  /\ getLanguageAndCodeFromMessage EqualFoldASCII sampleRegistry
       (fencedMessage "py3" ("print(1)" ++ nl ++ "print(2)"))
     = Ok (resolve EqualFoldASCII sampleRegistry "py3",
           "print(1)" ++ nl ++ "print(2)").
Proof.
  assert (contains LF "py3" = false) as H1 by reflexivity.
  assert (contains CR "py3" = false) as H2 by reflexivity.
  assert (contains CR ("print(1)" ++ nl ++ "print(2)") = false) as H3
      by reflexivity.
  split; [exact H1|]. split; [exact H2|]. split; [exact H3|].
  exact (fenced_round_trip EqualFoldASCII sampleRegistry "py3"
           ("print(1)" ++ nl ++ "print(2)") H1 H2 H3).
Defined.

Lemma one_line_message_witness :
  contains LF (Content {| Content := "```print(1)```" |}) = false
  /\ isCodeMessage {| Content := "```print(1)```" |} = Ok false
  /\ getLanguageAndCodeFromMessage EqualFoldASCII sampleRegistry
       {| Content := "```print(1)```" |} = Panic.
Proof.
  assert (contains LF (Content {| Content := "```print(1)```" |}) = false)
    as H by reflexivity.
  split; [exact H|].
  exact (one_line_message EqualFoldASCII sampleRegistry
           {| Content := "```print(1)```" |} H).
Defined.

Lemma resolved_language_is_registered_witness :
  isCodeMessage (pythonMessage "GCC") = Ok true
  /\ exists lang code : string,
      getLanguageAndCodeFromMessage EqualFoldASCII sampleRegistry
        (pythonMessage "GCC") = Ok (lang, code)
      /\ ((exists aliases : list string,
              In (lang, aliases) sampleRegistry
              /\ (EqualFoldASCII (rawTag (pythonMessage "GCC")) lang = true
                  \/ exists k, In k aliases
                       /\ EqualFoldASCII k (rawTag (pythonMessage "GCC")) = true))
          \/ (lang = EmptyString
              /\ forall name aliases, In (name, aliases) sampleRegistry ->
                   EqualFoldASCII (rawTag (pythonMessage "GCC")) name = false
                   /\ forall k, In k aliases ->
                        EqualFoldASCII k (rawTag (pythonMessage "GCC")) = false)).
Proof.
  assert (isCodeMessage (pythonMessage "GCC") = Ok true) as H
      by (vm_compute; reflexivity).
  split; [exact H|].
  exact (resolved_language_is_registered EqualFoldASCII sampleRegistry
           (pythonMessage "GCC") H).
Defined.

(** ** Loading the registry *)

Lemma mapAssign_keys (m : registry) (k : string) (v : list string) (x : string) :
  In x (map fst (mapAssign m k v)) <-> x = k \/ In x (map fst m).
Proof.
  induction m as [|[k' v'] m IH]; simpl.
  - intuition.
  - destruct (String.eqb_spec k' k) as [->|Hne]; simpl.
    + intuition.
    + rewrite IH. intuition.
Qed.

Lemma mapLookup_assign (m : registry) (k k' : string) (v : list string) :
  mapLookup (mapAssign m k v) k'
  = if String.eqb k k' then Some v else mapLookup m k'.
Proof.
  induction m as [|[k0 v0] m IH]; simpl.
  - reflexivity.
  - destruct (String.eqb_spec k0 k) as [->|Hne]; simpl.
    + destruct (String.eqb k k'); reflexivity.
    + rewrite IH. destruct (String.eqb_spec k0 k') as [->|Hne'];
        [|reflexivity].
      destruct (String.eqb_spec k k'); [congruence|reflexivity].
Qed.

Lemma mapAssign_NoDup (m : registry) (k : string) (v : list string) :
  NoDup (map fst m) -> NoDup (map fst (mapAssign m k v)).
Proof.
  induction m as [|[k' v'] m IH]; simpl; intros Hnd.
  - constructor; [tauto|constructor].
  - inversion Hnd as [|? ? Hnotin Hnd']; subst.
    destruct (String.eqb_spec k' k) as [->|Hne]; simpl.
    + now constructor.
    + constructor; [|now apply IH].
      rewrite mapAssign_keys. intros [Heq|Hin]; [congruence|contradiction].
Qed.

Lemma mapLookup_In (m : registry) (k : string) :
  In k (map fst m) <-> mapLookup m k <> None.
Proof.
  induction m as [|[k' v'] m IH]; simpl.
  - split; [tauto|congruence].
  - destruct (String.eqb_spec k' k) as [->|Hne].
    + split; [discriminate|auto].
    + rewrite <- IH. split; [intros [H|H]; [congruence|exact H]|auto].
Qed.

Lemma load_fold_keys (runtimes : list Runtime) (m : registry) (x : string) :
  In x (map fst (fold_left (fun m r => mapAssign m (Language r) (Aliases r))
                   runtimes m))
  <-> In x (map Language runtimes) \/ In x (map fst m).
Proof.
  revert m. induction runtimes as [|r runtimes IH]; intros m; simpl.
  - tauto.
  - rewrite IH, mapAssign_keys. intuition.
Qed.

Lemma load_fold_NoDup (runtimes : list Runtime) (m : registry) :
  NoDup (map fst m) ->
  NoDup (map fst (fold_left (fun m r => mapAssign m (Language r) (Aliases r))
                    runtimes m)).
Proof.
  revert m. induction runtimes as [|r runtimes IH]; intros m H; simpl.
  - exact H.
  - apply IH. now apply mapAssign_NoDup.
Qed.

Lemma load_fold_untouched (runtimes : list Runtime) (m : registry) (k : string) :
  (forall r, In r runtimes -> Language r <> k) ->
  mapLookup (fold_left (fun m r => mapAssign m (Language r) (Aliases r))
               runtimes m) k
  = mapLookup m k.
Proof.
  revert m. induction runtimes as [|r runtimes IH]; intros m H; simpl.
  - reflexivity.
  - rewrite IH by (intros r' Hr'; apply H; now right).
    rewrite mapLookup_assign.
    destruct (String.eqb_spec (Language r) k) as [Heq|]; [|reflexivity].
    exfalso. apply (H r); [now left|exact Heq].
Qed.

(** After [init] the two globals agree: the names in [languages] are
    exactly the keys of [languageMappings], so the check of the [/run]
    option accepts a string exactly when it is a key of the registry. *)
Theorem loadLanguages_consistent (runtimes : list Runtime) (l : string) :
  let languages := fst (loadLanguages runtimes) in
  let languageMappings := snd (loadLanguages runtimes) in
  (stringInSlice l languages = true <-> mapLookup languageMappings l <> None)
  /\ (stringInSlice l languages = true
      <-> exists r, In r runtimes /\ Language r = l)
  /\ NoDup (map fst languageMappings).
Proof.
  cbv zeta. unfold loadLanguages. cbn [fst snd]. split; [|split].
  - rewrite stringInSlice_In, <- mapLookup_In, load_fold_keys. simpl. tauto.
  - rewrite stringInSlice_In, in_map_iff. split.
    + intros (r & Hr & Hin). now exists r.
    + intros (r & Hin & Hr). now exists r.
  - apply load_fold_NoDup. constructor.
Qed.

(** When several runtimes carry the same language name, the registry
    keeps the aliases of the last one only. *)
Theorem loadLanguages_last_wins (pre post : list Runtime) (r : Runtime) :
  (forall r', In r' post -> Language r' <> Language r) ->
  mapLookup (snd (loadLanguages (pre ++ r :: post))) (Language r)
  = Some (Aliases r).
Proof.
  intros Hpost. unfold loadLanguages. cbn [snd].
  rewrite fold_left_app. cbn [fold_left].
  rewrite load_fold_untouched by assumption.
  rewrite mapLookup_assign. now rewrite String.eqb_refl.
Qed.

Lemma loadLanguages_last_wins_witness :
  let node := {| Language := "javascript"; Aliases := ["node"; "js"] |} in
  let deno := {| Language := "javascript"; Aliases := ["deno"; "deno-js"] |} in
  let py := {| Language := "python"; Aliases := ["py"] |} in
  (forall r', In r' [py] -> Language r' <> Language deno)
  /\ mapLookup (snd (loadLanguages ([node] ++ deno :: [py]))) (Language deno)
     = Some (Aliases deno).
Proof.
  cbv zeta.
  assert (forall r', In r' [{| Language := "python"; Aliases := ["py"] |}] ->
                     Language r' <> "javascript") as H.
  { intros r' [<-|[]]. discriminate. }
  split; [exact H|].
  exact (loadLanguages_last_wins
           [{| Language := "javascript"; Aliases := ["node"; "js"] |}]
           [{| Language := "python"; Aliases := ["py"] |}]
           {| Language := "javascript"; Aliases := ["deno"; "deno-js"] |} H).
Defined.

(** ** The handlers *)

Lemma accepted_nonempty (m : Message) :
  isCodeMessage m = Ok true -> Content m <> EmptyString.
Proof.
  intros H Hc. destruct m as [content]. cbn [Content] in Hc. subst content.
  vm_compute in H. discriminate.
Qed.

Lemma codeBody_of_lines (m : Message) (c0 : string) (middle : list string)
  (lst : string) :
  lines m = (c0 :: middle ++ [lst])%list -> codeBody m = Join_LF middle.
Proof.
  intros Hc. unfold codeBody. rewrite Hc. cbn [tl].
  now rewrite removelast_last.
Qed.

(** With the handlers' limit of 500, posting the output never panics and
    adds at least one message after those already posted. *)
Lemma sendOutput_ok (output : string) (posted : list string) :
  exists fragments : list string,
    splitOutput output 500 = Ok fragments
    /\ fragments <> []
    /\ sendOutput output posted = Ok (posted ++ fragments)%list.
Proof.
  assert (8 <= 500 <= GoInt.max_int) as Hlim by (vm_compute; split; congruence).
  destruct (splitLoop_payloads 500 Hlim (String.length output) output [])
    as (ps & Hps & Hne & _); [lia|].
  exists (map fence ps). split; [exact Hps|]. split.
  - destruct ps; [congruence|discriminate].
  - unfold sendOutput, splitOutput. rewrite Hps. simpl.
    now rewrite sendOutput_posts.
Qed.

Section HandlerFacts.

Variable EqualFold : string -> string -> bool.
Variable pistonExec : string -> string -> string * option string.
Variable languages : list string.
Variable languageMappings : registry.

Lemma execAndSend_ok (lang code : string) :
  exists h : handled,
    execAndSend pistonExec lang code = Ok h
    /\ followups h <> []
    /\ execCalls h = [(lang, code)].
Proof.
  unfold execAndSend. destruct (pistonExec lang code) as [output [err|]].
  - eexists. split; [reflexivity|]. split; [discriminate|reflexivity].
  - destruct (sendOutput_ok output []) as (fs & _ & Hne & Hsend).
    rewrite Hsend. simpl. eexists. split; [reflexivity|].
    split; [exact Hne|reflexivity].
Qed.

Lemma findCodeMessage_found (pre post : list Message) (m : Message) :
  (forall x, In x pre -> isCodeMessage x = Ok false) ->
  isCodeMessage m = Ok true ->
  findCodeMessage (pre ++ m :: post) = Ok m.
Proof.
  intros Hpre Hm. induction pre as [|x pre IH]; simpl.
  - now rewrite Hm.
  - rewrite (Hpre x) by now left. simpl. apply IH.
    intros y Hy. apply Hpre. now right.
Qed.

Lemma findCodeMessage_none (messages : list Message) :
  (forall x, In x messages -> isCodeMessage x = Ok false) ->
  findCodeMessage messages = Ok {| Content := EmptyString |}.
Proof.
  induction messages as [|x messages IH]; intros H; simpl; [reflexivity|].
  rewrite (H x) by now left. simpl. apply IH. intros y Hy. apply H. now right.
Qed.

Lemma findCodeMessage_panic (pre post : list Message) (m : Message) :
  (forall x, In x pre -> isCodeMessage x = Ok false) ->
  isCodeMessage m = Panic ->
  findCodeMessage (pre ++ m :: post) = Panic.
Proof.
  intros Hpre Hm. induction pre as [|x pre IH]; simpl.
  - now rewrite Hm.
  - rewrite (Hpre x) by now left. simpl. apply IH.
    intros y Hy. apply Hpre. now right.
Qed.

(** [Run Code] panics exactly when [isCodeMessage] panics on the target
    message; in every other case it returns, and when the deferred
    response failed it posts nothing and runs nothing. *)
Theorem handleRunCode_panics_iff (respondFailed : bool) (message : Message) :
  (handleRunCode EqualFold pistonExec languageMappings respondFailed message
   = Panic
   <-> respondFailed = false /\ isCodeMessage message = Panic)
  /\ (respondFailed = true ->
      handleRunCode EqualFold pistonExec languageMappings respondFailed message
      = Ok {| followups := []; execCalls := [] |}).
Proof.
  unfold handleRunCode. destruct respondFailed.
  - split; [|reflexivity]. split; [discriminate|]. now intros [? _].
  - split; [|discriminate].
    destruct (isCodeMessage message) as [[|]|] eqn:Hm; simpl.
    + destruct (getLanguage_fenced EqualFold languageMappings message Hm)
        as (middle & _ & Hget).
      rewrite Hget. simpl.
      destruct (negb _).
      * destruct (execAndSend_ok (resolve EqualFold languageMappings
                                    (rawTag message)) (Join_LF middle))
          as (h & Hh & _).
        rewrite Hh. split; [discriminate|]. now intros [_ ?].
      * split; [discriminate|]. now intros [_ ?].
    + split; [discriminate|]. now intros [_ ?].
    + tauto.
Qed.

(** Whenever [Run Code] got its deferred response through and returns,
    the user gets at least one follow-up message, and the execution
    service is called at most once: with a non-empty language that is a
    name of the registry, and with the code between the fences. *)
Theorem handleRunCode_answers (message : Message) (h : handled) :
  handleRunCode EqualFold pistonExec languageMappings false message = Ok h ->
  followups h <> []
  /\ (execCalls h = []
      \/ exists lang aliases,
           execCalls h = [(lang, codeBody message)]
           /\ lang <> EmptyString
           /\ In (lang, aliases) languageMappings).
Proof.
  unfold handleRunCode.
  destruct (isCodeMessage message) as [[|]|] eqn:Hm; simpl;
    [| intros [= <-]; split; [discriminate|now left] | discriminate].
  destruct (getLanguage_fenced EqualFold languageMappings message Hm)
    as (middle & Hc & Hget).
  rewrite Hget. simpl.
  rewrite (codeBody_of_lines message _ _ _ Hc).
  destruct (String.eqb_spec (resolve EqualFold languageMappings
                               (rawTag message)) EmptyString) as [He|Hne];
    simpl.
  - intros [= <-]. split; [discriminate|now left].
  - destruct (execAndSend_ok (resolve EqualFold languageMappings
                                (rawTag message)) (Join_LF middle))
      as (h' & Hh' & Hf & Hcalls).
    rewrite Hh'. intros [= <-]. split; [exact Hf|]. right.
    unfold resolve in *.
    destruct (find (entryMatches EqualFold (rawTag message)) languageMappings)
      as [[i j]|] eqn:E; [|congruence].
    exists i, j. split; [exact Hcalls|]. split; [exact Hne|].
    now apply find_some in E.
Qed.

(** [/run] looks for the first message of the history that
    [isCodeMessage] accepts; when there is none (the empty history too)
    it answers that no code message was found and runs nothing. *)
Theorem handleRun_none_found (messages : list Message) (options : list string) :
  (forall x, In x messages -> isCodeMessage x = Ok false) ->
  handleRun EqualFold pistonExec languages languageMappings false false
    messages options
  = Ok {| followups := [noCodeMessages]; execCalls := [] |}.
Proof.
  intros H. unfold handleRun. rewrite findCodeMessage_none by assumption.
  reflexivity.
Qed.

(** With an option, [/run] ignores the tag of the code message: an
    option that is literally in [languages] is what the code is run as,
    any other option is refused with the list of languages, and nothing
    is run. *)
Theorem handleRun_option
  (pre post : list Message) (m : Message) (option0 : string)
  (options : list string) :
  (forall x, In x pre -> isCodeMessage x = Ok false) ->
  isCodeMessage m = Ok true ->
  (In option0 languages -> option0 <> EmptyString ->
   exists h : handled,
     handleRun EqualFold pistonExec languages languageMappings false false
       (pre ++ m :: post) (option0 :: options) = Ok h
     /\ followups h <> []
     /\ execCalls h = [(option0, codeBody m)])
  /\ (~ In option0 languages ->
      handleRun EqualFold pistonExec languages languageMappings false false
        (pre ++ m :: post) (option0 :: options)
      = Ok {| followups := [notSupported option0 languages];
              execCalls := [] |}).
Proof.
  intros Hpre Hm.
  destruct (getLanguage_fenced EqualFold languageMappings m Hm)
    as (middle & Hc & Hget).
  assert (String.eqb (Content m) EmptyString = false) as Hcontent.
  { apply String.eqb_neq. now apply accepted_nonempty. }
  unfold handleRun.
  rewrite (findCodeMessage_found pre post m Hpre Hm). simpl.
  rewrite Hcontent, Hget. simpl.
  rewrite (codeBody_of_lines m _ _ _ Hc).
  unfold runLanguage, lenL. simpl List.length.
  destruct (Z.ltb_spec 0 (Z.of_nat (S (List.length options)))); [|lia].
  cbn [andb]. split.
  - intros Hin Hne. apply stringInSlice_In in Hin. rewrite Hin. simpl.
    apply String.eqb_neq in Hne. rewrite Hne.
    apply execAndSend_ok.
  - intros Hnot.
    destruct (stringInSlice option0 languages) eqn:E; [|reflexivity].
    apply stringInSlice_In in E. contradiction.
Qed.

(** One message is enough to break [/run]: when a message of two lines
    or more with a first line under three bytes comes in the history
    before any code message, the handler panics. *)
Theorem handleRun_history_panic
  (pre post : list Message) (m : Message) (options : list string) :
  (forall x, In x pre -> isCodeMessage x = Ok false) ->
  2 <= lenL (lines m) -> len (hd EmptyString (lines m)) < 3 ->
  handleRun EqualFold pistonExec languages languageMappings false false
    (pre ++ m :: post) options = Panic.
Proof.
  intros Hpre Hlines Hfirst. unfold handleRun.
  rewrite findCodeMessage_panic; [reflexivity|exact Hpre|].
  rewrite isCodeMessage_cases.
  destruct (Z.ltb_spec (lenL (lines m)) 2); [lia|].
  destruct (Z.ltb_spec (len (hd EmptyString (lines m))) 3); [reflexivity|lia].
Qed.

End HandlerFacts.

Lemma handleRunCode_panics_iff_witness :
  handleRunCode EqualFoldASCII echoExec sampleRegistry false
    {| Content := "hi" ++ nl ++ "there" |} = Panic.
Proof.
  apply (proj1 (handleRunCode_panics_iff EqualFoldASCII echoExec sampleRegistry
                  false {| Content := "hi" ++ nl ++ "there" |})).
  split; [reflexivity|vm_compute; reflexivity].
Defined.

Lemma handleRunCode_answers_witness :
  let h := {| followups := [fence "print(1)"];
              execCalls := [("python", "print(1)")] |} in
  handleRunCode EqualFoldASCII echoExec sampleRegistry false
    (pythonMessage "py3") = Ok h
  /\ followups h <> []
  /\ (execCalls h = []
      \/ exists lang aliases,
           execCalls h = [(lang, codeBody (pythonMessage "py3"))]
           /\ lang <> EmptyString
           /\ In (lang, aliases) sampleRegistry).
Proof.
  cbv zeta.
  assert (handleRunCode EqualFoldASCII echoExec sampleRegistry false
            (pythonMessage "py3")
          = Ok {| followups := [fence "print(1)"];
                  execCalls := [("python", "print(1)")] |}) as H
      by (vm_compute; reflexivity).
  split; [exact H|].
  exact (handleRunCode_answers EqualFoldASCII echoExec sampleRegistry
           (pythonMessage "py3") _ H).
Defined.

Lemma chatter_rejected (x : Message) :
  In x chatter -> isCodeMessage x = Ok false.
Proof.
  intros [<-|[<-|[]]]; vm_compute; reflexivity.
Qed.

Lemma handleRun_none_found_witness :
  (forall x, In x chatter -> isCodeMessage x = Ok false)
  /\ handleRun EqualFoldASCII echoExec ["python"; "c"] sampleRegistry
       false false chatter []
     = Ok {| followups := [noCodeMessages]; execCalls := [] |}.
Proof.
  split; [exact chatter_rejected|].
  exact (handleRun_none_found EqualFoldASCII echoExec ["python"; "c"]
           sampleRegistry chatter [] chatter_rejected).
Defined.

Lemma handleRun_option_witness :
  (forall x, In x chatter -> isCodeMessage x = Ok false)
  /\ isCodeMessage (pythonMessage "py") = Ok true
  /\ In "c" ["python"; "c"]
  /\ "c" <> EmptyString
  /\ (exists h : handled,
         handleRun EqualFoldASCII echoExec ["python"; "c"] sampleRegistry
           false false (chatter ++ pythonMessage "py" :: []) ["c"] = Ok h
         /\ followups h <> []
         /\ execCalls h = [("c", codeBody (pythonMessage "py"))])
  /\ ~ In "C" ["python"; "c"]
  /\ handleRun EqualFoldASCII echoExec ["python"; "c"] sampleRegistry
       false false (chatter ++ pythonMessage "py" :: []) ["C"]
     = Ok {| followups := [notSupported "C" ["python"; "c"]];
             execCalls := [] |}.
Proof.
  assert (isCodeMessage (pythonMessage "py") = Ok true) as H
      by (vm_compute; reflexivity).
  assert (In "c" ["python"; "c"]) as Hin by (right; left; reflexivity).
  assert ("c" <> EmptyString) as Hne by discriminate.
  assert (~ In "C" ["python"; "c"]) as Hnot
      by (intros [E|[E|[]]]; discriminate).
  split; [exact chatter_rejected|]. split; [exact H|].
  split; [exact Hin|]. split; [exact Hne|]. split.
  - exact (proj1 (handleRun_option EqualFoldASCII echoExec ["python"; "c"]
                    sampleRegistry chatter [] (pythonMessage "py") "c" []
                    chatter_rejected H) Hin Hne).
  - split; [exact Hnot|].
    exact (proj2 (handleRun_option EqualFoldASCII echoExec ["python"; "c"]
                    sampleRegistry chatter [] (pythonMessage "py") "C" []
                    chatter_rejected H) Hnot).
Defined.

Lemma handleRun_history_panic_witness :
  (forall x, In x chatter -> isCodeMessage x = Ok false)
  /\ 2 <= lenL (lines {| Content := "hi" ++ nl ++ "there" |})
  /\ len (hd EmptyString (lines {| Content := "hi" ++ nl ++ "there" |})) < 3
  /\ handleRun EqualFoldASCII echoExec ["python"; "c"] sampleRegistry
       false false
       (chatter ++ {| Content := "hi" ++ nl ++ "there" |}
                :: [pythonMessage "py"]) []
     = Panic.
Proof.
  assert (2 <= lenL (lines {| Content := "hi" ++ nl ++ "there" |})) as H1
      by (vm_compute; congruence).
  assert (len (hd EmptyString (lines {| Content := "hi" ++ nl ++ "there" |}))
          < 3) as H2 by (vm_compute; reflexivity).
  split; [exact chatter_rejected|]. split; [exact H1|]. split; [exact H2|].
  exact (handleRun_history_panic EqualFoldASCII echoExec ["python"; "c"]
           sampleRegistry chatter [pythonMessage "py"]
           {| Content := "hi" ++ nl ++ "there" |} [] chatter_rejected H1 H2).
Defined.

(** ** Cropping: what is kept, and the response of [messageCreate] *)

Lemma get_take (i n : nat) (s : string) :
  (i < n)%nat -> String.get i (take n s) = String.get i s.
Proof.
  revert i s. induction n as [|n IH]; intros i s Hi; [lia|].
  destruct s as [|a s]; [reflexivity|].
  destruct i as [|i]; [reflexivity|]. simpl. apply IH. lia.
Qed.

Section CropMore.

Variable log10int : Z -> Z.

Hypothesis log10int_range :
  forall c, 1 <= c <= GoInt.max_int -> 0 <= log10int c <= 18.

(** When [cropMessage] crops, what it keeps has between
    [MSG_CHAR_LIM - buffer - 43] and [MSG_CHAR_LIM - buffer - 23]
    bytes. *)
Theorem cropMessage_kept_length (toCrop : string) (buffer : Z) :
  noWrap toCrop buffer -> buffer <= 456 ->
  MSG_CHAR_LIM <= len toCrop + buffer ->
  exists (shown : string) (dropped : Z),
    cropMessage log10int toCrop buffer = Ok (shown, dropped)
    /\ MSG_CHAR_LIM - buffer - 43 <= len shown <= MSG_CHAR_LIM - buffer - 23.
Proof.
  intros Hnw Hb Hge.
  destruct (cropMessage_cut log10int log10int_range toCrop buffer Hnw Hb Hge)
    as (He & Hcrop & Hcut).
  eexists. eexists. split; [exact Hcrop|].
  assert (len (take (Z.to_nat (finalCut toCrop (rawCut log10int toCrop buffer)))
                 toCrop)
          = finalCut toCrop (rawCut log10int toCrop buffer)) as ->.
  { unfold len in *. rewrite length_take. lia. }
  destruct Hnw as (Hb0 & Hl & Hlb). unfold MSG_CHAR_LIM in *.
  assert (0 <= log10int (len toCrop - (500 - buffer - 22)) <= 18) as Hd
      by (apply log10int_range; pose proof (len_nonneg toCrop); lia).
  unfold rawCut, MSG_CHAR_LIM in *. lia.
Qed.

(** The text [cropMessage] keeps never ends in a lone slash: when its
    last byte is a slash, so is the byte before it. *)
Theorem cropMessage_no_lone_slash (toCrop : string) (buffer : Z) :
  noWrap toCrop buffer -> buffer <= 456 ->
  MSG_CHAR_LIM <= len toCrop + buffer ->
  exists (shown : string) (dropped : Z),
    cropMessage log10int toCrop buffer = Ok (shown, dropped)
    /\ (1 <= String.length shown)%nat
    /\ (String.get (String.length shown - 1) shown = Some slash ->
        (2 <= String.length shown)%nat
        /\ String.get (String.length shown - 2) shown = Some slash).
Proof.
  intros Hnw Hb Hge.
  destruct (cropMessage_cut log10int log10int_range toCrop buffer Hnw Hb Hge)
    as (He & Hcrop & Hcut).
  set (e := rawCut log10int toCrop buffer) in *.
  set (cut := finalCut toCrop e) in *.
  exists (take (Z.to_nat cut) toCrop), (len toCrop - cut).
  split; [exact Hcrop|].
  assert (String.length (take (Z.to_nat cut) toCrop) = Z.to_nat cut) as ->.
  { rewrite length_take. unfold len in He. lia. }
  split; [lia|].
  rewrite !get_take by lia.
  destruct (index_in_range toCrop (e - 1)) as (c1 & G1 & _); [lia|].
  destruct (index_in_range toCrop (e - 2)) as (c2 & G2 & _); [lia|].
  destruct (index_in_range toCrop (e - 3)) as (c3 & G3 & _); [lia|].
  assert (cut = e - 2 /\ c2 = slash /\ c3 <> slash
          \/ cut = e - 1 /\ c1 = slash /\ (c2 = slash -> c3 = slash)
          \/ cut = e /\ c1 <> slash) as Hcases.
  { unfold cut, finalCut. rewrite G1, G2, G3.
    destruct (Ascii.eqb_spec c2 slash), (Ascii.eqb_spec c3 slash),
      (Ascii.eqb_spec c1 slash); cbn [negb andb]; intuition congruence. }
  destruct Hcases as [(-> & H2 & H3)|[(-> & H1 & H23)|(-> & H1)]].
  - replace (Z.to_nat (e - 2) - 1)%nat with (Z.to_nat (e - 3)) by lia.
    rewrite G3. intros [= E]. contradiction.
  - replace (Z.to_nat (e - 1) - 1)%nat with (Z.to_nat (e - 2)) by lia.
    replace (Z.to_nat (e - 1) - 2)%nat with (Z.to_nat (e - 3)) by lia.
    rewrite G2, G3. intros [= E]. split; [lia|]. now rewrite (H23 E).
  - replace (Z.to_nat e - 1)%nat with (Z.to_nat (e - 1)) by lia.
    rewrite G1. intros [= E]. contradiction.
Qed.

(** The response of [messageCreate] never fails to be built.  An output
    of fewer than 474 bytes (with the buffer of 26, under
    [MSG_CHAR_LIM]) is shown whole between the header and the footer,
    with no note; a longer output is shown as a prefix of 431 to 451
    bytes followed by the note with the number of bytes left out. *)
Theorem response_shape (output : string) :
  len output + messageCreate_buffer <= GoInt.max_int ->
  exists shown tail : string,
    output = shown ++ tail
    /\ response log10int output
       = Ok ("Received Output:" ++ nl ++ "```" ++ nl ++ shown ++ nl ++ "```"
             ++ nl
             ++ (if len tail =? 0 then EmptyString else croppedNote (len tail)))
    /\ (len output < 474 ->
        tail = EmptyString /\ len output + 26 < MSG_CHAR_LIM)
    /\ (474 <= len output -> 431 <= len shown <= 451).
Proof.
  change messageCreate_buffer with 26. intros Hmax.
  pose proof (len_nonneg output) as H0.
  destruct (Z_lt_le_dec (len output) 474) as [Hshort|Hlong].
  - exists output, EmptyString. split.
    { clear. induction output as [|a s IH]; simpl; [reflexivity|].
      now rewrite <- IH. }
    split; [|split; [intros _; split; [reflexivity|unfold MSG_CHAR_LIM; lia]
                    |lia]].
    unfold response. change messageCreate_buffer with 26.
    unfold cropMessage, MSG_CHAR_LIM.
    assert (GoInt.add (len output) 26 = len output + 26) as ->
        by (unwrap; lia).
    destruct (Z.ltb_spec (len output + 26) 500); [reflexivity|lia].
  - assert (noWrap output 26) as Hnw.
    { unfold noWrap, GoInt.min_int, GoInt.max_int in *. lia. }
    destruct (cropMessage_cut log10int log10int_range output 26 Hnw
                ltac:(lia) ltac:(unfold MSG_CHAR_LIM; lia))
      as (He & Hcrop & Hcut).
    set (cut := finalCut output (rawCut log10int output 26)) in *.
    assert (0 <= log10int (len output - (500 - 26 - 22)) <= 18) as Hd
        by (apply log10int_range; unfold GoInt.max_int in *; lia).
    assert (431 <= cut <= 451) as Hrange
        by (unfold rawCut, MSG_CHAR_LIM in *; lia).
    assert (len (take (Z.to_nat cut) output) = cut) as Hshown.
    { unfold len in *. rewrite length_take. lia. }
    assert (len (drop (Z.to_nat cut) output) = len output - cut) as Htail.
    { unfold len in *. rewrite length_drop. lia. }
    exists (take (Z.to_nat cut) output), (drop (Z.to_nat cut) output).
    split; [symmetry; apply take_drop|]. split; [|split; [lia|]].
    + unfold response. change messageCreate_buffer with 26.
      rewrite Hcrop. cbn [bind fst snd]. rewrite Htail.
      destruct (Z.ltb_spec 0 (len output - cut)); [|lia].
      destruct (Z.eqb_spec (len output - cut) 0); [lia|reflexivity].
    + intros _. rewrite Hshown. exact Hrange.
Qed.

End CropMore.

Lemma cropMessage_kept_length_witness :
  noWrap (repeat_char 600 "A") messageCreate_buffer
  /\ messageCreate_buffer <= 456
  /\ MSG_CHAR_LIM <= len (repeat_char 600 "A") + messageCreate_buffer
  /\ exists (shown : string) (dropped : Z),
      cropMessage ilog10 (repeat_char 600 "A") messageCreate_buffer
      = Ok (shown, dropped)
      /\ MSG_CHAR_LIM - messageCreate_buffer - 43 <= len shown
         <= MSG_CHAR_LIM - messageCreate_buffer - 23.
Proof.
  assert (noWrap (repeat_char 600 "A") messageCreate_buffer) as H1
      by (vm_compute; repeat split; congruence).
  assert (messageCreate_buffer <= 456) as H2 by (vm_compute; congruence).
  assert (MSG_CHAR_LIM <= len (repeat_char 600 "A") + messageCreate_buffer)
    as H3 by (vm_compute; congruence).
  split; [exact H1|]. split; [exact H2|]. split; [exact H3|].
  exact (cropMessage_kept_length ilog10 ilog10_range (repeat_char 600 "A")
           messageCreate_buffer H1 H2 H3).
Defined.

Lemma cropMessage_no_lone_slash_witness :
  let toCrop := repeat_char 448 "A" ++ "//" ++ repeat_char 60 "A" in
  noWrap toCrop messageCreate_buffer
  /\ messageCreate_buffer <= 456
  /\ MSG_CHAR_LIM <= len toCrop + messageCreate_buffer
  /\ exists (shown : string) (dropped : Z),
      cropMessage ilog10 toCrop messageCreate_buffer = Ok (shown, dropped)
      /\ (1 <= String.length shown)%nat
      /\ (String.get (String.length shown - 1) shown = Some slash ->
          (2 <= String.length shown)%nat
          /\ String.get (String.length shown - 2) shown = Some slash).
Proof.
  cbv zeta.
  set (toCrop := repeat_char 448 "A" ++ "//" ++ repeat_char 60 "A").
  assert (noWrap toCrop messageCreate_buffer) as H1
      by (vm_compute; repeat split; congruence).
  assert (messageCreate_buffer <= 456) as H2 by (vm_compute; congruence).
  assert (MSG_CHAR_LIM <= len toCrop + messageCreate_buffer) as H3
      by (vm_compute; congruence).
  split; [exact H1|]. split; [exact H2|]. split; [exact H3|].
  exact (cropMessage_no_lone_slash ilog10 ilog10_range toCrop
           messageCreate_buffer H1 H2 H3).
Defined.

Lemma response_shape_witness :
  (forall c, 1 <= c <= GoInt.max_int -> 0 <= ilog10 c <= 18)
  /\ len (repeat_char 600 "A") + messageCreate_buffer <= GoInt.max_int
  /\ exists shown tail : string,
      repeat_char 600 "A" = shown ++ tail
      /\ response ilog10 (repeat_char 600 "A")
         = Ok ("Received Output:" ++ nl ++ "```" ++ nl ++ shown ++ nl ++ "```"
               ++ nl
               ++ (if len tail =? 0 then EmptyString
                   else croppedNote (len tail)))
      /\ (len (repeat_char 600 "A") < 474 ->
          tail = EmptyString /\ len (repeat_char 600 "A") + 26 < MSG_CHAR_LIM)
      /\ (474 <= len (repeat_char 600 "A") -> 431 <= len shown <= 451).
Proof.
  assert (len (repeat_char 600 "A") + messageCreate_buffer <= GoInt.max_int)
    as H by (vm_compute; congruence).
  split; [exact ilog10_range|]. split; [exact H|].
  exact (response_shape ilog10 ilog10_range (repeat_char 600 "A") H).
Defined.

(** * The outcome of [cropMessage] on every input without wrap-around *)

Lemma index_negative (s : string) (i : Z) : i < 0 -> index s i = Panic.
Proof.
  intros H. unfold index. destruct (Z.leb_spec 0 i); [lia|reflexivity].
Qed.

Section CropOutcome.

Variable log10int : Z -> Z.

Hypothesis log10int_range :
  forall c, 1 <= c <= GoInt.max_int -> 0 <= log10int c <= 18.

(** When [cropMessage] crops, with [e] the raw cut index: the call panics
    when [e] is under 2 ([toCrop[e-2]] is out of range) and when [e] is 2
    and the text starts with a slash ([toCrop[e-3]] is out of range); in
    every other case it cuts at [finalCut]. *)
Lemma cropMessage_outcome (toCrop : string) (buffer : Z) :
  noWrap toCrop buffer ->
  MSG_CHAR_LIM <= len toCrop + buffer ->
  rawCut log10int toCrop buffer < len toCrop
  /\ cropMessage log10int toCrop buffer
     = (if (rawCut log10int toCrop buffer <? 2)
           || ((rawCut log10int toCrop buffer =? 2) && startsWithSlash toCrop)
        then Panic
        else Ok (take (Z.to_nat (finalCut toCrop (rawCut log10int toCrop buffer)))
                   toCrop,
                 len toCrop - finalCut toCrop (rawCut log10int toCrop buffer)))
  /\ ((rawCut log10int toCrop buffer <? 2)
      || ((rawCut log10int toCrop buffer =? 2) && startsWithSlash toCrop)
      = false ->
      1 <= finalCut toCrop (rawCut log10int toCrop buffer)
        <= rawCut log10int toCrop buffer).
Proof.
  unfold noWrap, MSG_CHAR_LIM. intros (Hb & Hl & Hlb) Hge.
  pose proof (len_nonneg toCrop) as Hl0.
  assert (0 <= log10int (len toCrop - (500 - buffer - 22)) <= 18) as Hd
      by (apply log10int_range; lia).
  unfold rawCut, MSG_CHAR_LIM.
  set (e := 500 - buffer - 22
            - (log10int (len toCrop - (500 - buffer - 22)) + 1)) in *.
  assert (e < len toCrop) as He by (unfold e; lia).
  assert (GoInt.min_int + 10 <= e) as Hemin
      by (unfold e, GoInt.min_int, GoInt.max_int in *; lia).
  split; [exact He|].
  unfold cropMessage, MSG_CHAR_LIM. cbv zeta.
  assert (GoInt.add (len toCrop) buffer = len toCrop + buffer) as -> by (unwrap; lia).
  destruct (Z.ltb_spec (len toCrop + buffer) 500); [lia|].
  assert (GoInt.sub 500 buffer = 500 - buffer) as -> by (unwrap; lia).
  assert (GoInt.sub (500 - buffer) 22 = 500 - buffer - 22) as -> by (unwrap; lia).
  assert (GoInt.sub (len toCrop) (500 - buffer - 22)
          = len toCrop - (500 - buffer - 22)) as -> by (unwrap; lia).
  assert (GoInt.add (log10int (len toCrop - (500 - buffer - 22))) 1
          = log10int (len toCrop - (500 - buffer - 22)) + 1) as ->
      by (unwrap; lia).
  assert (GoInt.sub (500 - buffer - 22)
            (log10int (len toCrop - (500 - buffer - 22)) + 1) = e) as ->
      by (unwrap; unfold e; lia).
  assert (GoInt.sub e 1 = e - 1) as -> by (unwrap; lia).
  assert (GoInt.sub e 2 = e - 2) as -> by (unwrap; lia).
  assert (GoInt.sub e 3 = e - 3) as -> by (unwrap; lia).
  destruct (Z.ltb_spec e 2) as [Hlt|Hge2].
  - rewrite index_negative by lia. cbn [orb]. split; [reflexivity|discriminate].
  - cbn [orb].
    destruct (index_in_range toCrop (e - 1)) as (c1 & G1 & I1); [lia|].
    destruct (index_in_range toCrop (e - 2)) as (c2 & G2 & I2); [lia|].
    unfold finalCut. rewrite G1, G2, I2. unfold bind at 1.
    destruct (Z.eqb_spec e 2) as [E2|Hne2].
    + (* the cut is at 2: [toCrop[e-3]] does not exist *)
      assert (String.get 0 toCrop = Some c2) as G0
          by (rewrite E2 in G2; exact G2).
      unfold startsWithSlash. rewrite G0. cbn [andb].
      destruct (Ascii.eqb c2 slash).
      * rewrite index_negative by lia. split; [reflexivity|discriminate].
      * unfold bind at 1. cbn [andb]. rewrite I1.
        unfold bind at 2. unfold bind at 1.
        destruct (Ascii.eqb c1 slash).
        -- assert (GoInt.sub (len toCrop) (e - 1) = len toCrop - (e - 1)) as ->
               by (unwrap; lia).
           rewrite slice_to_ok by lia. split; [reflexivity|lia].
        -- assert (GoInt.sub (len toCrop) e = len toCrop - e) as ->
               by (unwrap; lia).
           rewrite slice_to_ok by lia. split; [reflexivity|lia].
    + cbn [andb].
      destruct (index_in_range toCrop (e - 3)) as (c3 & G3 & I3); [lia|].
      rewrite G3.
      destruct (Ascii.eqb c2 slash).
      * rewrite I3. unfold bind at 2. unfold bind at 1.
        destruct (Ascii.eqb c3 slash); cbn [negb andb].
        -- rewrite I1. unfold bind at 2. unfold bind at 1.
           destruct (Ascii.eqb c1 slash).
           ++ assert (GoInt.sub (len toCrop) (e - 1) = len toCrop - (e - 1))
                as -> by (unwrap; lia).
              rewrite slice_to_ok by lia. split; [reflexivity|lia].
           ++ assert (GoInt.sub (len toCrop) e = len toCrop - e) as ->
                  by (unwrap; lia).
              rewrite slice_to_ok by lia. split; [reflexivity|lia].
        -- unfold bind at 1.
           assert (GoInt.sub (len toCrop) (e - 2) = len toCrop - (e - 2)) as ->
               by (unwrap; lia).
           rewrite slice_to_ok by lia. split; [reflexivity|lia].
      * unfold bind at 1. cbn [andb].
        rewrite I1. unfold bind at 2. unfold bind at 1.
        destruct (Ascii.eqb c1 slash).
        -- assert (GoInt.sub (len toCrop) (e - 1) = len toCrop - (e - 1)) as ->
               by (unwrap; lia).
           rewrite slice_to_ok by lia. split; [reflexivity|lia].
        -- assert (GoInt.sub (len toCrop) e = len toCrop - e) as ->
               by (unwrap; lia).
           rewrite slice_to_ok by lia. split; [reflexivity|lia].
Qed.

(** The raw cut index is at least 3 for every buffer up to 456. *)
Lemma rawCut_small_buffer (toCrop : string) (buffer : Z) :
  noWrap toCrop buffer -> MSG_CHAR_LIM <= len toCrop + buffer ->
  buffer <= 456 -> 3 <= rawCut log10int toCrop buffer.
Proof.
  unfold noWrap, MSG_CHAR_LIM. intros (Hb & Hl & Hlb) Hge Hb'.
  pose proof (len_nonneg toCrop) as Hl0.
  assert (0 <= log10int (len toCrop - (500 - buffer - 22)) <= 18) as Hd
      by (apply log10int_range; lia).
  unfold rawCut, MSG_CHAR_LIM. lia.
Qed.

End CropOutcome.

Lemma startsWithSlash_true (s : string) :
  startsWithSlash s = true <-> String.get 0 s = Some slash.
Proof.
  unfold startsWithSlash. destruct (String.get 0 s) as [a|].
  - destruct (Ascii.eqb_spec a slash) as [->|Hne].
    + tauto.
    + split; [discriminate|]. intros [= E]. contradiction.
  - split; discriminate.
Qed.

Lemma startsWithSlash_false (s : string) :
  startsWithSlash s = false <-> String.get 0 s <> Some slash.
Proof.
  rewrite <- startsWithSlash_true. destruct (startsWithSlash s).
  - split; [discriminate|]. intros H. now contradiction H.
  - split; [discriminate|reflexivity].
Qed.

(** C6 (amended): when [len(toCrop) + buffer] is under the limit,
    [cropMessage] returns its input and 0.  When it is at least the
    limit and no [int] operation wraps around, let [e] be the raw cut
    index, [MSG_CHAR_LIM - buffer - 22] less the digit estimate: if [e]
    is at least 3, or [e] is 2 and the text does not start with a slash,
    [cropMessage] returns a strictly shorter prefix of [toCrop] and a
    positive count, equal to [len(toCrop)] less the final cut index,
    which is the length of the prefix; in every other case it panics on
    an index out of range.  [e] is at least 3 for every buffer up to
    456; the only caller passes 26. *)
Theorem cropMessage_result
  (log10int : Z -> Z) (toCrop : string) (buffer : Z) :
  (forall c, 1 <= c <= GoInt.max_int -> 0 <= log10int c <= 18) ->
  (GoInt.is_int buffer -> len toCrop + buffer < MSG_CHAR_LIM ->
   cropMessage log10int toCrop buffer = Ok (toCrop, 0))
  /\ (noWrap toCrop buffer -> MSG_CHAR_LIM <= len toCrop + buffer ->
      (3 <= rawCut log10int toCrop buffer
       \/ (rawCut log10int toCrop buffer = 2
           /\ String.get 0 toCrop <> Some slash) ->
       exists (shown tail : string) (dropped : Z),
         cropMessage log10int toCrop buffer = Ok (shown, dropped)
         /\ toCrop = shown ++ tail
         /\ len shown < len toCrop
         /\ 0 < dropped
         /\ dropped = len toCrop - len shown
         /\ len shown = finalCut toCrop (rawCut log10int toCrop buffer))
      /\ (rawCut log10int toCrop buffer < 2
          \/ (rawCut log10int toCrop buffer = 2
              /\ String.get 0 toCrop = Some slash) ->
          cropMessage log10int toCrop buffer = Panic)
      /\ (buffer <= 456 -> 3 <= rawCut log10int toCrop buffer)).
Proof.
  intros Hlog. split.
  - unfold MSG_CHAR_LIM. intros Hb Hlt. unfold cropMessage, MSG_CHAR_LIM.
    pose proof (len_nonneg toCrop).
    assert (GoInt.add (len toCrop) buffer = len toCrop + buffer) as ->
        by (unwrap; lia).
    destruct (Z.ltb_spec (len toCrop + buffer) 500); [reflexivity|lia].
  - intros Hnw Hge.
    destruct (cropMessage_outcome log10int Hlog toCrop buffer Hnw Hge)
      as (He & Hcrop & Hcut).
    set (e := rawCut log10int toCrop buffer) in *.
    split; [|split].
    + intros Hok.
      assert ((e <? 2) || ((e =? 2) && startsWithSlash toCrop) = false) as Hc.
      { destruct Hok as [H3|[H2 Hs]].
        - destruct (Z.ltb_spec e 2), (Z.eqb_spec e 2); try lia; reflexivity.
        - apply startsWithSlash_false in Hs. rewrite Hs, andb_false_r.
          destruct (Z.ltb_spec e 2); [lia|reflexivity]. }
      rewrite Hc in Hcrop. specialize (Hcut Hc).
      set (cut := finalCut toCrop e) in *.
      assert (len (take (Z.to_nat cut) toCrop) = cut) as Hlen.
      { unfold len. rewrite length_take. unfold len in He. lia. }
      exists (take (Z.to_nat cut) toCrop), (drop (Z.to_nat cut) toCrop),
        (len toCrop - cut).
      split; [exact Hcrop|]. split; [symmetry; apply take_drop|].
      rewrite Hlen. repeat split; lia.
    + intros Hbad.
      assert ((e <? 2) || ((e =? 2) && startsWithSlash toCrop) = true) as Hc.
      { destruct Hbad as [H2|[H2 Hs]].
        - destruct (Z.ltb_spec e 2); [reflexivity|lia].
        - apply startsWithSlash_true in Hs. rewrite Hs, H2.
          now rewrite orb_true_r. }
      now rewrite Hc in Hcrop.
    + intros Hb. now apply rawCut_small_buffer.
Qed.

Lemma cropMessage_result_witness :
  (forall c, 1 <= c <= GoInt.max_int -> 0 <= ilog10 c <= 18)
  /\ GoInt.is_int messageCreate_buffer
  /\ len "hello" + messageCreate_buffer < MSG_CHAR_LIM
  /\ cropMessage ilog10 "hello" messageCreate_buffer = Ok ("hello", 0)
  /\ noWrap (repeat_char 26 "A") 474
  /\ MSG_CHAR_LIM <= len (repeat_char 26 "A") + 474
  /\ (3 <= rawCut ilog10 (repeat_char 26 "A") 474
      \/ (rawCut ilog10 (repeat_char 26 "A") 474 = 2
          /\ String.get 0 (repeat_char 26 "A") <> Some slash))
  /\ (exists (shown tail : string) (dropped : Z),
         cropMessage ilog10 (repeat_char 26 "A") 474 = Ok (shown, dropped)
         /\ repeat_char 26 "A" = shown ++ tail
         /\ len shown < len (repeat_char 26 "A")
         /\ 0 < dropped
         /\ dropped = len (repeat_char 26 "A") - len shown
         /\ len shown
            = finalCut (repeat_char 26 "A")
                (rawCut ilog10 (repeat_char 26 "A") 474))
  /\ noWrap ("/" ++ repeat_char 25 "A") 474
  /\ MSG_CHAR_LIM <= len ("/" ++ repeat_char 25 "A") + 474
  /\ (rawCut ilog10 ("/" ++ repeat_char 25 "A") 474 < 2
      \/ (rawCut ilog10 ("/" ++ repeat_char 25 "A") 474 = 2
          /\ String.get 0 ("/" ++ repeat_char 25 "A") = Some slash))
  /\ cropMessage ilog10 ("/" ++ repeat_char 25 "A") 474 = Panic
  /\ noWrap (repeat_char 600 "A") messageCreate_buffer
  /\ MSG_CHAR_LIM <= len (repeat_char 600 "A") + messageCreate_buffer
  /\ messageCreate_buffer <= 456
  /\ 3 <= rawCut ilog10 (repeat_char 600 "A") messageCreate_buffer.
Proof.
  assert (GoInt.is_int messageCreate_buffer) as H1
      by (vm_compute; split; congruence).
  assert (len "hello" + messageCreate_buffer < MSG_CHAR_LIM) as H2
      by (vm_compute; reflexivity).
  assert (noWrap (repeat_char 26 "A") 474) as H3
      by (vm_compute; repeat split; congruence).
  assert (MSG_CHAR_LIM <= len (repeat_char 26 "A") + 474) as H4
      by (vm_compute; congruence).
  assert (3 <= rawCut ilog10 (repeat_char 26 "A") 474
          \/ (rawCut ilog10 (repeat_char 26 "A") 474 = 2
              /\ String.get 0 (repeat_char 26 "A") <> Some slash)) as H5
      by (right; split; [vm_compute; reflexivity|vm_compute; discriminate]).
  assert (noWrap ("/" ++ repeat_char 25 "A") 474) as H6
      by (vm_compute; repeat split; congruence).
  assert (MSG_CHAR_LIM <= len ("/" ++ repeat_char 25 "A") + 474) as H7
      by (vm_compute; congruence).
  assert (rawCut ilog10 ("/" ++ repeat_char 25 "A") 474 < 2
          \/ (rawCut ilog10 ("/" ++ repeat_char 25 "A") 474 = 2
              /\ String.get 0 ("/" ++ repeat_char 25 "A") = Some slash)) as H8
      by (right; split; vm_compute; reflexivity).
  assert (noWrap (repeat_char 600 "A") messageCreate_buffer) as H9
      by (vm_compute; repeat split; congruence).
  assert (MSG_CHAR_LIM <= len (repeat_char 600 "A") + messageCreate_buffer)
    as H10 by (vm_compute; congruence).
  assert (messageCreate_buffer <= 456) as H11 by (vm_compute; congruence).
  split; [exact ilog10_range|]. split; [exact H1|]. split; [exact H2|].
  split; [exact (proj1 (cropMessage_result ilog10 "hello" messageCreate_buffer
                          ilog10_range) H1 H2)|].
  split; [exact H3|]. split; [exact H4|]. split; [exact H5|].
  split; [exact (proj1 (proj2 (cropMessage_result ilog10 (repeat_char 26 "A")
                                 474 ilog10_range) H3 H4) H5)|].
  split; [exact H6|]. split; [exact H7|]. split; [exact H8|].
  split; [exact (proj1 (proj2 (proj2 (cropMessage_result ilog10
                                        ("/" ++ repeat_char 25 "A") 474
                                        ilog10_range) H6 H7)) H8)|].
  split; [exact H9|]. split; [exact H10|]. split; [exact H11|].
  exact (proj2 (proj2 (proj2 (cropMessage_result ilog10 (repeat_char 600 "A")
                                messageCreate_buffer ilog10_range) H9 H10))
           H11).
Defined.

(** C7 (amended): in the cropping branch of [cropMessage], with no [int]
    wrap-around, let [e] be the raw cut index.  When [e] is at least 3:
    if the byte at [e - 2] is a slash and the byte at [e - 3] is not,
    the cut moves back by two; otherwise, if the byte at [e - 1], right
    before the cut, is a slash, the cut moves back by one; otherwise the
    cut stays at [e].  When [e] is 2 there is no byte at [e - 3]: if the
    byte at 0 is a slash the call panics, otherwise the cut moves back
    by one when the byte at 1 is a slash and stays at 2 when it is not.
    When [e] is under 2 the call panics. *)
Theorem cropMessage_separator_adjustment
  (log10int : Z -> Z) (toCrop : string) (buffer : Z) :
  (forall c, 1 <= c <= GoInt.max_int -> 0 <= log10int c <= 18) ->
  noWrap toCrop buffer ->
  MSG_CHAR_LIM <= len toCrop + buffer ->
  let e := rawCut log10int toCrop buffer in
  let byteAt (i : Z) := String.get (Z.to_nat i) toCrop in
  (3 <= e ->
   exists cut : Z,
     cropMessage log10int toCrop buffer
     = Ok (take (Z.to_nat cut) toCrop, len toCrop - cut)
     /\ (byteAt (e - 2) = Some slash -> byteAt (e - 3) <> Some slash ->
         cut = e - 2)
     /\ (~ (byteAt (e - 2) = Some slash /\ byteAt (e - 3) <> Some slash) ->
         byteAt (e - 1) = Some slash -> cut = e - 1)
     /\ (~ (byteAt (e - 2) = Some slash /\ byteAt (e - 3) <> Some slash) ->
         byteAt (e - 1) <> Some slash -> cut = e))
  /\ (e = 2 ->
      (byteAt 0 = Some slash -> cropMessage log10int toCrop buffer = Panic)
      /\ (byteAt 0 <> Some slash ->
          exists cut : Z,
            cropMessage log10int toCrop buffer
            = Ok (take (Z.to_nat cut) toCrop, len toCrop - cut)
            /\ (byteAt 1 = Some slash -> cut = 1)
            /\ (byteAt 1 <> Some slash -> cut = 2)))
  /\ (e < 2 -> cropMessage log10int toCrop buffer = Panic).
Proof.
  intros Hlog Hnw Hge e byteAt.
  destruct (cropMessage_outcome log10int Hlog toCrop buffer Hnw Hge)
    as (He & Hcrop & _).
  fold e in He, Hcrop. split; [|split].
  - intros H3.
    assert ((e <? 2) || ((e =? 2) && startsWithSlash toCrop) = false) as Hc
        by (destruct (Z.ltb_spec e 2), (Z.eqb_spec e 2); try lia; reflexivity).
    rewrite Hc in Hcrop.
    exists (finalCut toCrop e). split; [exact Hcrop|].
    destruct (index_in_range toCrop (e - 1)) as (c1 & G1 & _); [lia|].
    destruct (index_in_range toCrop (e - 2)) as (c2 & G2 & _); [lia|].
    destruct (index_in_range toCrop (e - 3)) as (c3 & G3 & _); [lia|].
    unfold finalCut, byteAt. rewrite G1, G2, G3.
    destruct (Ascii.eqb_spec c2 slash) as [E2|E2];
      destruct (Ascii.eqb_spec c3 slash) as [E3|E3];
      destruct (Ascii.eqb_spec c1 slash) as [E1|E1];
      cbn [negb andb]; subst;
      repeat split; intros; try reflexivity; try congruence;
      match goal with
      | H : ~ (_ /\ _) |- _ => exfalso; apply H; split; congruence
      end.
  - intros E2. unfold byteAt. change (Z.to_nat 0) with 0%nat.
    change (Z.to_nat 1) with 1%nat. split.
    + intros Hs. apply startsWithSlash_true in Hs.
      rewrite Hs, E2 in Hcrop. exact Hcrop.
    + intros Hs. pose proof Hs as Hs'. apply startsWithSlash_false in Hs'.
      rewrite Hs', andb_false_r, E2 in Hcrop. cbn [Z.ltb Z.compare orb] in Hcrop.
      exists (finalCut toCrop 2). split; [exact Hcrop|].
      destruct (index_in_range toCrop 1) as (c1 & G1 & _); [lia|].
      destruct (index_in_range toCrop 0) as (c0 & G0 & _); [lia|].
      change (Z.to_nat 1) with 1%nat in G1.
      change (Z.to_nat 0) with 0%nat in G0.
      unfold finalCut. change (Z.to_nat (2 - 2)) with 0%nat.
      change (Z.to_nat (2 - 1)) with 1%nat.
      rewrite G0, G1.
      assert (Ascii.eqb c0 slash = false) as ->.
      { apply Ascii.eqb_neq. intros ->. apply Hs. exact G0. }
      cbn [andb].
      destruct (Ascii.eqb_spec c1 slash) as [->|E1]; split; intros;
        try reflexivity; congruence.
  - intros Hlt.
    destruct (Z.ltb_spec e 2); [|lia]. exact Hcrop.
Qed.

Lemma cropMessage_separator_adjustment_witness :
  let toCrop := repeat_char 448 "A" ++ "/" ++ repeat_char 60 "A" in
  (forall c, 1 <= c <= GoInt.max_int -> 0 <= ilog10 c <= 18)
  /\ noWrap toCrop messageCreate_buffer
  /\ MSG_CHAR_LIM <= len toCrop + messageCreate_buffer
  /\ rawCut ilog10 toCrop messageCreate_buffer = 450
  /\ (exists cut : Z,
         cropMessage ilog10 toCrop messageCreate_buffer
         = Ok (take (Z.to_nat cut) toCrop, len toCrop - cut)
         /\ cut = 448)
  /\ noWrap (repeat_char 40 "A") 460
  /\ MSG_CHAR_LIM <= len (repeat_char 40 "A") + 460
  /\ rawCut ilog10 (repeat_char 40 "A") 460 = 16
  /\ (exists cut : Z,
         cropMessage ilog10 (repeat_char 40 "A") 460
         = Ok (take (Z.to_nat cut) (repeat_char 40 "A"),
               len (repeat_char 40 "A") - cut)
         /\ cut = 16)
  /\ noWrap ("/" ++ repeat_char 25 "A") 474
  /\ MSG_CHAR_LIM <= len ("/" ++ repeat_char 25 "A") + 474
  /\ rawCut ilog10 ("/" ++ repeat_char 25 "A") 474 = 2
  /\ cropMessage ilog10 ("/" ++ repeat_char 25 "A") 474 = Panic.
Proof.
  cbv zeta.
  set (toCrop := repeat_char 448 "A" ++ "/" ++ repeat_char 60 "A").
  assert (noWrap toCrop messageCreate_buffer) as H1
      by (vm_compute; repeat split; congruence).
  assert (MSG_CHAR_LIM <= len toCrop + messageCreate_buffer) as H2
      by (vm_compute; congruence).
  assert (rawCut ilog10 toCrop messageCreate_buffer = 450) as H3
      by (vm_compute; reflexivity).
  assert (noWrap (repeat_char 40 "A") 460) as H4
      by (vm_compute; repeat split; congruence).
  assert (MSG_CHAR_LIM <= len (repeat_char 40 "A") + 460) as H5
      by (vm_compute; congruence).
  assert (rawCut ilog10 (repeat_char 40 "A") 460 = 16) as H6
      by (vm_compute; reflexivity).
  assert (noWrap ("/" ++ repeat_char 25 "A") 474) as H7
      by (vm_compute; repeat split; congruence).
  assert (MSG_CHAR_LIM <= len ("/" ++ repeat_char 25 "A") + 474) as H8
      by (vm_compute; congruence).
  assert (rawCut ilog10 ("/" ++ repeat_char 25 "A") 474 = 2) as H9
      by (vm_compute; reflexivity).
  split; [exact ilog10_range|]. split; [exact H1|]. split; [exact H2|].
  split; [exact H3|]. split.
  { destruct (proj1 (cropMessage_separator_adjustment ilog10 toCrop
                       messageCreate_buffer ilog10_range H1 H2))
      as (cut & Hcrop & Hcase & _).
    - rewrite H3. vm_compute. congruence.
    - exists cut. split; [exact Hcrop|].
      rewrite H3 in Hcase. apply Hcase; vm_compute;
        [reflexivity|discriminate]. }
  split; [exact H4|]. split; [exact H5|]. split; [exact H6|]. split.
  { destruct (proj1 (cropMessage_separator_adjustment ilog10
                       (repeat_char 40 "A") 460 ilog10_range H4 H5))
      as (cut & Hcrop & _ & _ & Hcase).
    - rewrite H6. vm_compute. congruence.
    - exists cut. split; [exact Hcrop|].
      rewrite H6 in Hcase. apply Hcase.
      + vm_compute. intros [E _]. discriminate.
      + vm_compute. discriminate. }
  split; [exact H7|]. split; [exact H8|]. split; [exact H9|].
  apply (proj1 (proj1 (proj2 (cropMessage_separator_adjustment ilog10
                                ("/" ++ repeat_char 25 "A") 474 ilog10_range
                                H7 H8)) H9)).
  vm_compute. reflexivity.
Defined.

(** * Resolution under any visit order of the registry *)

(** Every [range] over [languageMappings] may visit the entries in
    another order.  When at most one entry answers to a tag the order
    does not matter. *)
Lemma resolve_permutation
  (EqualFold : string -> string -> bool) (reg reg' : registry) (t : string) :
  Permutation reg reg' -> oneAnswer EqualFold reg t ->
  resolve EqualFold reg t = resolve EqualFold reg' t.
Proof.
  intros Hperm Hone. unfold resolve.
  destruct (find (entryMatches EqualFold t) reg) as [e|] eqn:E;
    destruct (find (entryMatches EqualFold t) reg') as [e'|] eqn:E'.
  - apply find_some in E, E'. destruct E as [Hin Hm], E' as [Hin' Hm'].
    apply (Hone e e'); try assumption.
    apply Permutation_in with reg'; [now apply Permutation_sym|exact Hin'].
  - apply find_some in E. destruct E as [Hin Hm].
    pose proof (find_none _ _ E' e (Permutation_in e Hperm Hin)) as Hno.
    congruence.
  - apply find_some in E'. destruct E' as [Hin' Hm'].
    assert (In e' reg) as Hin
        by (apply Permutation_in with reg';
            [now apply Permutation_sym|exact Hin']).
    pose proof (find_none _ _ E e' Hin) as Hno. congruence.
  - reflexivity.
Qed.

Lemma oneAnswer_sample_PyThOn :
  oneAnswer EqualFoldASCII sampleRegistry (rawTag (pythonMessage "PyThOn")).
Proof.
  intros e1 e2 H1 H2. simpl in H1, H2.
  destruct H1 as [<-|[<-|[]]], H2 as [<-|[<-|[]]];
    vm_compute; intros; congruence.
Qed.

(** With two entries that answer to a tag, two calls can return two
    languages: here the tags [C] and [c], under the two orders of a
    registry of two entries. *)
Example visit_order_matters :
  let reg := [("python", ["py"; "c"]); ("c", ["gcc"])] in
  Permutation reg (rev reg)
  /\ EqualFoldASCII "C" "c" = true
  /\ getLanguageAndCodeFromMessage EqualFoldASCII reg (pythonMessage "C")
     = Ok ("python", "print(1)")
  /\ getLanguageAndCodeFromMessage EqualFoldASCII (rev reg) (pythonMessage "c")
     = Ok ("c", "print(1)").
Proof.
  cbv zeta. split; [apply Permutation_rev|].
  repeat split; vm_compute; reflexivity.
Qed.

(** C8 (amended): resolution of the tag of a code message is
    case-insensitive.  When at most one entry of the registry answers to
    a tag, two accepted messages whose tags fold to each other resolve
    to the same language, whatever the order in which each call visits
    the registry; the tag [PyThOn] resolves to [python] in every
    registry, in every order, where [python] is the one entry that
    answers to it.  A language given as the option of [/run] is instead
    compared byte for byte with the names in [languages]. *)
Theorem tag_resolution_case_insensitive :
  (forall (EqualFold : string -> string -> bool) (reg reg' : registry)
          (m m' : Message),
      (forall a b, EqualFold a b = EqualFold b a) ->
      (forall a b c, EqualFold a b = true -> EqualFold b c = true ->
                     EqualFold a c = true) ->
      Permutation reg reg' ->
      oneAnswer EqualFold reg (rawTag m) ->
      isCodeMessage m = Ok true ->
      isCodeMessage m' = Ok true ->
      EqualFold (rawTag m) (rawTag m') = true ->
      exists lang code code' : string,
        getLanguageAndCodeFromMessage EqualFold reg m = Ok (lang, code)
        /\ getLanguageAndCodeFromMessage EqualFold reg' m' = Ok (lang, code'))
  /\ (forall (aliases : list string) (reg : registry),
         In ("python", aliases) reg ->
         oneAnswer EqualFoldASCII reg "PyThOn" ->
         getLanguageAndCodeFromMessage EqualFoldASCII reg
           (pythonMessage "PyThOn")
         = Ok ("python", "print(1)"))
  /\ (forall (languages options : list string) (option0 lang code : string),
         (In option0 languages ->
          runLanguage languages (option0 :: options) lang code
          = if String.eqb option0 "" then NoLanguageProvided
            else Exec option0 code)
         /\ (~ In option0 languages ->
             runLanguage languages (option0 :: options) lang code
             = NotSupported option0)).
Proof.
  split; [|split].
  - intros EqualFold reg reg' m m' Hsym Htrans Hperm Hone Hm Hm' Htags.
    destruct (getLanguage_fenced EqualFold reg m Hm) as (mid & _ & Hget).
    destruct (getLanguage_fenced EqualFold reg' m' Hm') as (mid' & _ & Hget').
    exists (resolve EqualFold reg (rawTag m)), (Join_LF mid), (Join_LF mid').
    split; [exact Hget|].
    rewrite (resolve_permutation EqualFold reg reg' _ Hperm Hone).
    rewrite (resolve_fold_equal EqualFold reg' _ _ Hsym Htrans Htags).
    exact Hget'.
  - intros aliases reg Hin Hone.
    unfold getLanguageAndCodeFromMessage.
    change (lines (pythonMessage "PyThOn"))
      with ((backticks ++ "PyThOn")%string :: ["print(1)"] ++ [backticks])%list.
    rewrite rangeMappings_fenced.
    change (Join_LF ["print(1)"]) with "print(1)".
    assert (entryMatches EqualFoldASCII "PyThOn" ("python", aliases) = true)
      as Hpy by reflexivity.
    unfold resolve.
    destruct (find (entryMatches EqualFoldASCII "PyThOn") reg) as [e|] eqn:E.
    + apply find_some in E. destruct E as [He Hme].
      now rewrite (Hone e ("python", aliases) He Hin Hme Hpy).
    + pose proof (find_none _ _ E _ Hin) as Hno. congruence.
  - intros languages options option0 lang code.
    unfold runLanguage, lenL. simpl List.length.
    destruct (Z.ltb_spec 0 (Z.of_nat (S (List.length options)))); [|lia].
    cbn [andb]. split; intros Hin.
    + apply stringInSlice_In in Hin. now rewrite Hin.
    + destruct (stringInSlice option0 languages) eqn:E; [|reflexivity].
      apply stringInSlice_In in E. contradiction.
Qed.

Lemma tag_resolution_case_insensitive_witness :
  (forall a b, EqualFoldASCII a b = EqualFoldASCII b a)
  /\ (forall a b c, EqualFoldASCII a b = true -> EqualFoldASCII b c = true ->
                    EqualFoldASCII a c = true)
  /\ Permutation sampleRegistry (rev sampleRegistry)
  /\ oneAnswer EqualFoldASCII sampleRegistry (rawTag (pythonMessage "PyThOn"))
  /\ isCodeMessage (pythonMessage "PyThOn") = Ok true
  /\ isCodeMessage (pythonMessage "python") = Ok true
  /\ EqualFoldASCII (rawTag (pythonMessage "PyThOn"))
       (rawTag (pythonMessage "python")) = true
  /\ (exists lang code code' : string,
         getLanguageAndCodeFromMessage EqualFoldASCII sampleRegistry
           (pythonMessage "PyThOn") = Ok (lang, code)
         /\ getLanguageAndCodeFromMessage EqualFoldASCII (rev sampleRegistry)
              (pythonMessage "python") = Ok (lang, code'))
  /\ In ("python", ["py"; "py3"; "python3"]) (rev sampleRegistry)
  /\ oneAnswer EqualFoldASCII (rev sampleRegistry) "PyThOn"
  /\ getLanguageAndCodeFromMessage EqualFoldASCII (rev sampleRegistry)
       (pythonMessage "PyThOn") = Ok ("python", "print(1)").
Proof.
  assert (Permutation sampleRegistry (rev sampleRegistry)) as Hp
      by apply Permutation_rev.
  assert (isCodeMessage (pythonMessage "PyThOn") = Ok true) as H1
      by (vm_compute; reflexivity).
  assert (isCodeMessage (pythonMessage "python") = Ok true) as H2
      by (vm_compute; reflexivity).
  assert (EqualFoldASCII (rawTag (pythonMessage "PyThOn"))
            (rawTag (pythonMessage "python")) = true) as H3
      by (vm_compute; reflexivity).
  assert (In ("python", ["py"; "py3"; "python3"]) (rev sampleRegistry)) as H4
      by (right; left; reflexivity).
  assert (oneAnswer EqualFoldASCII (rev sampleRegistry) "PyThOn") as H5.
  { intros e1 e2 I1 I2. simpl in I1, I2.
    destruct I1 as [<-|[<-|[]]], I2 as [<-|[<-|[]]];
      vm_compute; intros; congruence. }
  split; [exact EqualFoldASCII_sym|]. split; [exact EqualFoldASCII_trans|].
  split; [exact Hp|]. split; [exact oneAnswer_sample_PyThOn|].
  split; [exact H1|]. split; [exact H2|]. split; [exact H3|].
  split.
  { exact (proj1 tag_resolution_case_insensitive EqualFoldASCII sampleRegistry
             (rev sampleRegistry) (pythonMessage "PyThOn")
             (pythonMessage "python") EqualFoldASCII_sym EqualFoldASCII_trans
             Hp oneAnswer_sample_PyThOn H1 H2 H3). }
  split; [exact H4|]. split; [exact H5|].
  exact (proj1 (proj2 tag_resolution_case_insensitive)
           ["py"; "py3"; "python3"] (rev sampleRegistry) H4 H5).
Defined.

(** * The body of a code message, against the text of the message *)

Lemma Split_LF_lines_noLF (s : string) :
  Forall (fun l => contains LF l = false) (Split_LF s).
Proof.
  induction s as [|a s IH]; cbn [Split_LF].
  - constructor; [reflexivity|constructor].
  - destruct (Ascii.eqb a LF) eqn:Ea.
    + constructor; [reflexivity|exact IH].
    + pose proof (Split_LF_nonempty s) as Hne.
      destruct (Split_LF s) as [|l ls]; [congruence|].
      inversion IH as [|? ? Hl Hls]; subst.
      constructor; [|exact Hls]. cbn [contains]. now rewrite Ea, Hl.
Qed.

Lemma concat_snoc (sep x : string) (l : list string) :
  l <> [] ->
  String.concat sep (l ++ [x]) = String.concat sep l ++ sep ++ x.
Proof.
  induction l as [|a [|b l] IH]; intros Hne; [congruence|reflexivity|].
  change (String.concat sep ((a :: b :: l) ++ [x]))
    with (a ++ sep ++ String.concat sep ((b :: l) ++ [x])).
  rewrite IH by discriminate.
  change (String.concat sep (a :: b :: l))
    with (a ++ sep ++ String.concat sep (b :: l)).
  now rewrite !append_assoc_s.
Qed.

Lemma Split_Join (l : list string) :
  l <> [] -> Forall (fun x => contains LF x = false) l ->
  Split_LF (Join_LF l) = l.
Proof.
  unfold Join_LF.
  induction l as [|a [|b l] IH]; intros Hne Hall; [congruence| |].
  - inversion Hall; subst. now apply Split_LF_noLF.
  - inversion Hall as [|? ? Ha Hrest]; subst.
    change (String.concat nl (a :: b :: l))
      with (a ++ String LF (String.concat nl (b :: l))).
    rewrite Split_LF_app, (Split_LF_noLF a Ha), IH; [reflexivity| |exact Hrest].
    discriminate.
Qed.

(** C9: on a message that [isCodeMessage] accepts, the first line is
    the marker followed by the raw tag (which may be empty and holds no
    line feed), the tag is what the registry is searched for, and the
    code returned is the text strictly between the first line and the
    last: the CRLF-normalised content of the message is the marker, the
    tag, a line feed, the code, a line feed and the marker, so the code
    is the lines in between with their line feeds kept; when there is no
    line in between the code is empty and the content is the marker, the
    tag, a line feed and the marker. *)
Theorem extraction_tag_and_body
  (EqualFold : string -> string -> bool) (reg : registry) (m : Message) :
  isCodeMessage m = Ok true ->
  exists (tag : string) (middle : list string) (lang code : string),
    lines m = ((backticks ++ tag)%string :: middle ++ [backticks])%list
    /\ getLanguageAndCodeFromMessage EqualFold reg m = Ok (lang, code)
    /\ lang = resolve EqualFold reg tag
    /\ code = Join_LF middle
    /\ contains LF tag = false
    /\ (middle = [] ->
        code = EmptyString
        /\ ReplaceAll_CRLF (Content m) = backticks ++ tag ++ nl ++ backticks)
    /\ (middle <> [] ->
        Split_LF code = middle
        /\ ReplaceAll_CRLF (Content m)
           = backticks ++ tag ++ nl ++ code ++ nl ++ backticks).
Proof.
  intros Hm. destruct (getLanguage_fenced EqualFold reg m Hm)
    as (middle & Hc & Hget).
  pose proof (Split_LF_lines_noLF (ReplaceAll_CRLF (Content m))) as Hall.
  pose proof (Join_Split (ReplaceAll_CRLF (Content m))) as Hjoin.
  fold (lines m) in Hall, Hjoin. rewrite Hc in Hall, Hjoin.
  pose proof (Forall_inv Hall) as Htag. pose proof (Forall_inv_tail Hall) as Hrest.
  cbv beta in Htag.
  rewrite contains_app in Htag. apply orb_false_elim in Htag.
  destruct Htag as [_ Htag].
  apply Forall_app in Hrest. destruct Hrest as [Hmid _].
  exists (rawTag m), middle, (resolve EqualFold reg (rawTag m)), (Join_LF middle).
  split; [exact Hc|]. split; [exact Hget|]. split; [reflexivity|].
  split; [reflexivity|]. split; [exact Htag|]. split.
  - intros ->. split; [reflexivity|]. rewrite <- Hjoin.
    unfold Join_LF. cbn [app String.concat]. now rewrite append_assoc_s.
  - intros Hne. split; [now apply Split_Join|].
    rewrite <- Hjoin at 1. unfold Join_LF.
    assert (String.concat nl ((backticks ++ rawTag m)%string
                                :: middle ++ [backticks])
            = (backticks ++ rawTag m) ++ nl
              ++ String.concat nl (middle ++ [backticks])) as ->.
    { destruct middle as [|x middle]; [congruence|reflexivity]. }
    rewrite concat_snoc by assumption.
    now rewrite append_assoc_s.
Qed.

Lemma extraction_tag_and_body_witness :
  isCodeMessage (pythonMessage "python") = Ok true
  /\ getLanguageAndCodeFromMessage EqualFoldASCII sampleRegistry
       (pythonMessage "python") = Ok ("python", "print(1)")
  /\ exists (tag : string) (middle : list string) (lang code : string),
      lines (pythonMessage "python")
      = ((backticks ++ tag)%string :: middle ++ [backticks])%list
      /\ getLanguageAndCodeFromMessage EqualFoldASCII sampleRegistry
           (pythonMessage "python") = Ok (lang, code)
      /\ lang = resolve EqualFoldASCII sampleRegistry tag
      /\ code = Join_LF middle
      /\ contains LF tag = false
      /\ (middle = [] ->
          code = EmptyString
          /\ ReplaceAll_CRLF (Content (pythonMessage "python"))
             = backticks ++ tag ++ nl ++ backticks)
      /\ (middle <> [] ->
          Split_LF code = middle
          /\ ReplaceAll_CRLF (Content (pythonMessage "python"))
             = backticks ++ tag ++ nl ++ code ++ nl ++ backticks).
Proof.
  assert (isCodeMessage (pythonMessage "python") = Ok true) as H
      by (vm_compute; reflexivity).
  split; [exact H|]. split; [vm_compute; reflexivity|].
  exact (extraction_tag_and_body EqualFoldASCII sampleRegistry
           (pythonMessage "python") H).
Defined.

(** * Line endings and the two handlers, under any visit order *)

(** Line endings: a text without stray carriage returns has the same
    lines, and gets the same answer from [isCodeMessage], whether its
    lines end in LF or in CR LF.  When it is a code message the code
    returned is the same for both, whatever the registries of the two
    calls; and the language is the same too, whatever the orders in
    which the two calls visit the registry, when at most one entry
    answers to the tag. *)
Theorem crlf_line_endings
  (EqualFold : string -> string -> bool) (s : string) :
  contains CR s = false ->
  lines {| Content := toCRLF s |} = lines {| Content := s |}
  /\ isCodeMessage {| Content := toCRLF s |} = isCodeMessage {| Content := s |}
  /\ (isCodeMessage {| Content := s |} = Ok true ->
      forall reg reg' : registry,
        (exists lang lang' code : string,
            getLanguageAndCodeFromMessage EqualFold reg
              {| Content := toCRLF s |} = Ok (lang, code)
            /\ getLanguageAndCodeFromMessage EqualFold reg'
                 {| Content := s |} = Ok (lang', code))
        /\ (Permutation reg reg' ->
            oneAnswer EqualFold reg (rawTag {| Content := s |}) ->
            getLanguageAndCodeFromMessage EqualFold reg
              {| Content := toCRLF s |}
            = getLanguageAndCodeFromMessage EqualFold reg'
                {| Content := s |})).
Proof.
  intros Hcr.
  assert (lines {| Content := toCRLF s |} = lines {| Content := s |}) as Hl.
  { unfold lines. cbn [Content].
    now rewrite ReplaceAll_CRLF_toCRLF, ReplaceAll_CRLF_noCR. }
  split; [exact Hl|]. split.
  - unfold isCodeMessage. now rewrite Hl.
  - intros Hm reg reg'.
    destruct (isCodeMessage_true_lines _ Hm) as (tag & middle & Hc).
    assert (rawTag {| Content := s |} = tag) as Htag
        by (unfold rawTag; now rewrite Hc).
    unfold getLanguageAndCodeFromMessage. rewrite Hl, Hc.
    rewrite !rangeMappings_fenced. split.
    + now exists (resolve EqualFold reg tag), (resolve EqualFold reg' tag),
        (Join_LF middle).
    + intros Hperm Hone. rewrite Htag in Hone.
      now rewrite (resolve_permutation EqualFold reg reg' tag Hperm Hone).
Qed.

Lemma crlf_line_endings_witness :
  contains CR (Content (pythonMessage "py")) = false
  /\ lines {| Content := toCRLF (Content (pythonMessage "py")) |}
     = lines {| Content := Content (pythonMessage "py") |}
  /\ isCodeMessage {| Content := toCRLF (Content (pythonMessage "py")) |}
     = isCodeMessage {| Content := Content (pythonMessage "py") |}
  /\ isCodeMessage {| Content := Content (pythonMessage "py") |} = Ok true
  /\ Permutation sampleRegistry (rev sampleRegistry)
  /\ oneAnswer EqualFoldASCII sampleRegistry
       (rawTag {| Content := Content (pythonMessage "py") |})
  /\ getLanguageAndCodeFromMessage EqualFoldASCII sampleRegistry
       {| Content := toCRLF (Content (pythonMessage "py")) |}
     = getLanguageAndCodeFromMessage EqualFoldASCII (rev sampleRegistry)
         {| Content := Content (pythonMessage "py") |}.
Proof.
  assert (contains CR (Content (pythonMessage "py")) = false) as H
      by reflexivity.
  assert (isCodeMessage {| Content := Content (pythonMessage "py") |} = Ok true)
    as Hm by (vm_compute; reflexivity).
  assert (Permutation sampleRegistry (rev sampleRegistry)) as Hp
      by apply Permutation_rev.
  assert (oneAnswer EqualFoldASCII sampleRegistry
            (rawTag {| Content := Content (pythonMessage "py") |})) as Hone.
  { intros e1 e2 I1 I2. simpl in I1, I2.
    destruct I1 as [<-|[<-|[]]], I2 as [<-|[<-|[]]];
      vm_compute; intros; congruence. }
  pose proof (crlf_line_endings EqualFoldASCII (Content (pythonMessage "py")) H)
    as (Hl & Hi & Hget).
  split; [exact H|]. split; [exact Hl|]. split; [exact Hi|].
  split; [exact Hm|]. split; [exact Hp|]. split; [exact Hone|].
  exact (proj2 (Hget Hm sampleRegistry (rev sampleRegistry)) Hp Hone).
Defined.

(** Without an option, [/run] does to the first code message of the
    history what [Run Code] does to its target, whatever the orders in
    which the two handlers visit the registry, when at most one entry
    answers to the tag of the message and the execution service gives
    both the same answers. *)
Theorem handleRun_as_RunCode
  (EqualFold : string -> string -> bool)
  (pistonExec : string -> string -> string * option string)
  (languages : list string) (reg reg' : registry)
  (pre post : list Message) (m : Message) :
  Permutation reg reg' ->
  (forall x, In x pre -> isCodeMessage x = Ok false) ->
  isCodeMessage m = Ok true ->
  oneAnswer EqualFold reg (rawTag m) ->
  handleRun EqualFold pistonExec languages reg false false
    (pre ++ m :: post) []
  = handleRunCode EqualFold pistonExec reg' false m.
Proof.
  intros Hperm Hpre Hm Hone. unfold handleRun, handleRunCode.
  rewrite (findCodeMessage_found pre post m Hpre Hm), Hm. simpl.
  destruct (String.eqb_spec (Content m) EmptyString) as [Hc|_].
  - now apply accepted_nonempty in Hm.
  - destruct (getLanguage_fenced EqualFold reg m Hm) as (mid & Hc & Hget).
    destruct (getLanguage_fenced EqualFold reg' m Hm) as (mid' & Hc' & Hget').
    assert (mid' = mid) as ->.
    { rewrite Hc in Hc'. injection Hc' as Hc'.
      now apply app_inv_tail in Hc'. }
    rewrite Hget, Hget'.
    rewrite <- (resolve_permutation EqualFold reg reg' _ Hperm Hone).
    simpl. unfold runLanguage. simpl.
    now destruct (String.eqb (resolve EqualFold reg (rawTag m)) EmptyString).
Qed.

Lemma handleRun_as_RunCode_witness :
  Permutation sampleRegistry (rev sampleRegistry)
  /\ (forall x, In x chatter -> isCodeMessage x = Ok false)
  /\ isCodeMessage (pythonMessage "py") = Ok true
  /\ oneAnswer EqualFoldASCII sampleRegistry (rawTag (pythonMessage "py"))
  /\ handleRun EqualFoldASCII echoExec ["python"; "c"] sampleRegistry
       false false (chatter ++ pythonMessage "py" :: []) []
     = handleRunCode EqualFoldASCII echoExec (rev sampleRegistry) false
         (pythonMessage "py").
Proof.
  assert (Permutation sampleRegistry (rev sampleRegistry)) as Hp
      by apply Permutation_rev.
  assert (isCodeMessage (pythonMessage "py") = Ok true) as H
      by (vm_compute; reflexivity).
  assert (oneAnswer EqualFoldASCII sampleRegistry
            (rawTag (pythonMessage "py"))) as Hone.
  { intros e1 e2 I1 I2. simpl in I1, I2.
    destruct I1 as [<-|[<-|[]]], I2 as [<-|[<-|[]]];
      vm_compute; intros; congruence. }
  split; [exact Hp|]. split; [exact chatter_rejected|].
  split; [exact H|]. split; [exact Hone|].
  exact (handleRun_as_RunCode EqualFoldASCII echoExec ["python"; "c"]
           sampleRegistry (rev sampleRegistry) chatter []
           (pythonMessage "py") Hp chatter_rejected H Hone).
Defined.
